(** * Conversation history retrieval and exclusion: a shallow embedding

    The development follows the Python sources of the repository:

    - [mcp_servers/mongodb/core/mongodb_client.py]        (module [MongoDBClient])
    - [mcp_servers/mongodb/tools/conversation_handler.py] (module [ConversationHandler])
    - [agent/memory/mongodb/conversation_repository.py]   (module [ConversationRepository])
    - [agent/memory/mongodb/memory_adapter.py]            (module [MongoDBMemoryAdapter])
    - [agent/memory/short_term_memory.py]                 (module [ShortTermMemory])
    - [agent/agent.py]                                    (module [BedrockRAGAgent])
    - [mcp_servers/bedrock_rag/retriever/knowledge_base_retriever.py]
                                                          (module [KnowledgeBaseRetriever])
    - [mcp_servers/bedrock_rag/core/bedrock_retriever_client.py]
                                                          (module [BedrockRetrieverClient])
    - [mcp_servers/bedrock_rag/tools/bedrock_rag_handler.py]
                                                          (module [BedrockRagHandler])
    - [mcp_servers/bedrock_rag/bedrockRag_mcp_server.py]  (module [BedrockRagMcpServer])

    Python dictionaries are finite maps from strings to Python values,
    exceptions are values of an error monad, objects with mutable attributes
    are records threaded through the calls, and the MongoDB server is an
    explicit state [Mongo.t] on which the driver calls operate.

    What lies outside the repository is modelled as follows.

    - Values: [None], [bool], [int], [str], [datetime], object ids and
      dictionaries; floating point numbers and lists are left out.
    - Exceptions: the classes the [except] clauses of the sources tell
      apart, all of them subclasses of [Exception].
    - The server: a list of documents; a query filters on the conversation
      id, sorts on the timestamp with ties kept in natural order (the server
      itself leaves the order of ties open), skips and limits. Whether the
      server can be connected to and whether it answers a data operation are
      fields of its state.
    - The model runtime: a function from the instruction to the returned
      messages or an exception.
    - The knowledge base: a function from the query to the returned
      documents or an exception. *)

From Stdlib Require Import ZArith String List Permutation Sorted.
From stdpp Require Import gmap strings pretty list fin_maps sorting.

#[local] Set Warnings "-register-all".
#[local] Open Scope string_scope.
#[local] Open Scope Z_scope.

(** ** Python values *)

(** The values that occur in stored documents, tool requests and metadata:
    [None], booleans, integers, strings, [datetime] values (as a count of
    clock ticks), BSON object ids and dictionaries with string keys. *)
Inductive pyval :=
  | PNone
  | PBool (b : bool)
  | PInt (z : Z)
  | PStr (s : string)
  | PTime (t : Z)
  | PObjectId (n : Z)
  | PDict (d : gmap string pyval).

Abbreviation dict := (gmap string pyval).

(** Python's [==]. Booleans are integers ([True == 1]); values of unrelated
    types are unequal; dictionaries are equal when they have the same keys
    with equal values. *)
Fixpoint py_eq (v w : pyval) {struct v} : bool :=
  match v, w with
  | PNone, PNone => true
  | PBool a, PBool b => bool_decide (a = b)
  | PBool a, PInt z | PInt z, PBool a => bool_decide (z = if a then 1 else 0)
  | PInt a, PInt b => bool_decide (a = b)
  | PStr a, PStr b => bool_decide (a = b)
  | PTime a, PTime b => bool_decide (a = b)
  | PObjectId a, PObjectId b => bool_decide (a = b)
  | PDict d, PDict e =>
      bool_decide (size d = size e) &&
      map_fold (fun k v' acc =>
                  acc && match e !! k with
                         | Some w' => py_eq v' w'
                         | None => false
                         end) true d
  | _, _ => false
  end.

(** [d.get(k)] and [d.get(k, default)]. *)
Definition dict_get (d : dict) (k : string) : pyval := default PNone (d !! k).
Definition dict_get_default (d : dict) (k : string) (dflt : pyval) : pyval :=
  default dflt (d !! k).

(** [k in d] for a dictionary [d]. *)
Definition dict_has (d : dict) (k : string) : bool := bool_decide (is_Some (d !! k)).

(** [limit or default] on an optional integer: [None] and [0] are falsy. *)
Definition py_or (limit : option Z) (dflt : Z) : Z :=
  match limit with
  | Some n => if n =? 0 then dflt else n
  | None => dflt
  end.

(** ** Exceptions *)

(** The exception classes that matter to the handlers of the sources, with
    the part of the class hierarchy the [except] clauses test. Every class
    below derives from [Exception]. *)
Inductive pyclass :=
  | Exception
  | TypeError
  | KeyError
  | RuntimeError
  | InvalidBSON
  | PyMongoError
  | OperationFailure
  | ConnectionFailure
  | AutoReconnect
  | ServerSelectionTimeoutError.

#[global] Instance pyclass_eq_dec : EqDecision pyclass.
Proof. solve_decision. Defined.

(** Method resolution order: the class itself followed by its bases. *)
Definition mro (c : pyclass) : list pyclass :=
  match c with
  | Exception => [Exception]
  | TypeError => [TypeError; Exception]
  | KeyError => [KeyError; Exception]
  | RuntimeError => [RuntimeError; Exception]
  | InvalidBSON => [InvalidBSON; Exception]
  | PyMongoError => [PyMongoError; Exception]
  | OperationFailure => [OperationFailure; PyMongoError; Exception]
  | ConnectionFailure => [ConnectionFailure; PyMongoError; Exception]
  | AutoReconnect => [AutoReconnect; ConnectionFailure; PyMongoError; Exception]
  | ServerSelectionTimeoutError =>
      [ServerSelectionTimeoutError; AutoReconnect; ConnectionFailure;
       PyMongoError; Exception]
  end.

(** A raised exception: its class and [str(e)]. *)
Record exn := { exn_class : pyclass; exn_str : string }.

Definition isinstance (e : exn) (c : pyclass) : bool :=
  bool_decide (c ∈ mro (exn_class e)).

(** The outcome of a call: a returned value or a raised exception. *)
Inductive result (A : Type) :=
  | Ok (a : A)
  | Raise (e : exn).
Arguments Ok {A} a.
Arguments Raise {A} e.

#[global] Instance result_ret : MRet result := fun A a => Ok a.
#[global] Instance result_bind : MBind result := fun A B f r =>
  match r with
  | Ok a => f a
  | Raise e => Raise e
  end.

(** [try: body / except <classes>: handler]. *)
Definition try_except {A} (body : result A) (caught : exn → bool)
    (handler : exn → result A) : result A :=
  match body with
  | Ok a => Ok a
  | Raise e => if caught e then handler e else Raise e
  end.

(** ** Python sequences *)

(** [not l] for a list. *)
Definition py_not (l : list dict) : bool :=
  match l with
  | [] => true
  | _ => false
  end.

(** The slice [l[-n:]]: the last [n] elements for a positive [n], the whole
    list for [n = 0], and the list without its first [-n] elements for a
    negative [n]. *)
Definition py_suffix (n : Z) (l : list dict) : list dict :=
  let len := Z.of_nat (length l) in
  let start := - n in
  let start := if start <? 0 then Z.max (start + len) 0 else Z.min start len in
  drop (Z.to_nat start) l.

Definition py_type_name (v : pyval) : string :=
  match v with
  | PNone => "NoneType"
  | PBool _ => "bool"
  | PInt _ => "int"
  | PStr _ => "str"
  | PTime _ => "datetime.datetime"
  | PObjectId _ => "ObjectId"
  | PDict _ => "dict"
  end.

(** [a < b]: dates, numbers (booleans count as [0] and [1]), strings and
    object ids are ordered among themselves; any other pair raises
    [TypeError]. *)
Definition py_lt (a b : pyval) : result bool :=
  let unorderable :=
    Raise {| exn_class := TypeError;
             exn_str := "'<' not supported between instances of '" +:+
                        py_type_name a +:+ "' and '" +:+ py_type_name b +:+ "'" |} in
  let number (v : pyval) : option Z :=
    match v with
    | PInt z => Some z
    | PBool c => Some (if c then 1 else 0)
    | _ => None
    end in
  match a, b with
  | PTime x, PTime y => Ok (x <? y)
  | PStr x, PStr y => Ok (String.ltb x y)
  | PObjectId x, PObjectId y => Ok (x <? y)
  | _, _ =>
      match number a, number b with
      | Some x, Some y => Ok (x <? y)
      | _, _ => unorderable
      end
  end.

(** [sorted(l, key=lambda msg: msg["timestamp"])]: the keys are computed
    first ([KeyError] for a record without the field), then the records are
    put in order with [<] on the keys, equal keys staying in their order. *)
Fixpoint timestamp_keys (l : list dict) : result (list (pyval * dict)) :=
  match l with
  | [] => Ok []
  | msg :: l' =>
      match msg !! "timestamp" with
      | None => Raise {| exn_class := KeyError; exn_str := "'timestamp'" |}
      | Some k => keyed ← timestamp_keys l'; Ok ((k, msg) :: keyed)
      end
  end.

Fixpoint py_insert (x : pyval * dict) (l : list (pyval * dict))
    : result (list (pyval * dict)) :=
  match l with
  | [] => Ok [x]
  | y :: l' =>
      b ← py_lt y.1 x.1;
      if b : bool then r ← py_insert x l'; Ok (y :: r) else Ok (x :: y :: l')
  end.

Fixpoint py_sort_keyed (l : list (pyval * dict)) : result (list (pyval * dict)) :=
  match l with
  | [] => Ok []
  | x :: l' => s ← py_sort_keyed l'; py_insert x s
  end.

Definition py_sorted_by_timestamp (l : list dict) : result (list dict) :=
  keyed ← timestamp_keys l;
  s ← py_sort_keyed keyed;
  Ok (List.map snd s).

(** ** The MongoDB server seen through the driver *)

Module Mongo.

(** The collection in natural (insertion) order, the clock that
    [datetime.utcnow()] reads, the next object id, and the condition of the
    server: what connecting to it raises, and what a data operation
    ([find], [insert_one], [delete_many]) raises, if anything. The condition
    is a field of the state, so that each call can be given the condition it
    meets. *)
Record t := {
  docs : list dict;
  utcnow : Z;
  next_id : Z;
  connect_fault : option exn;
  query_fault : option exn
}.

Inductive direction := ASCENDING | DESCENDING.

(** The filter [{"conversation_id": c}] for a string [c]. *)
Definition matches (c : string) (d : dict) : bool :=
  match d !! "conversation_id" with
  | Some (PStr s) => bool_decide (s = c)
  | _ => false
  end.

(** Sort key: the date under ["timestamp"]. In the BSON comparison order
    every other kind of value (and a missing field) sorts below every
    date; such records are taken to be ties among themselves. *)
Definition ts_key (d : dict) : option Z :=
  match d !! "timestamp" with
  | Some (PTime t) => Some t
  | _ => None
  end.

Definition key_le (a b : option Z) : bool :=
  match a, b with
  | None, _ => true
  | Some _, None => false
  | Some x, Some y => x <=? y
  end.

Definition doc_le (dir : direction) (x y : dict) : bool :=
  match dir with
  | ASCENDING => key_le (ts_key x) (ts_key y)
  | DESCENDING => key_le (ts_key y) (ts_key x)
  end.

(** The server's sort, as a stable insertion sort: records with equal keys
    keep their natural order. *)
Fixpoint insert_sorted (dir : direction) (x : dict) (l : list dict) : list dict :=
  match l with
  | [] => [x]
  | y :: l' => if doc_le dir x y then x :: y :: l' else y :: insert_sorted dir x l'
  end.

Fixpoint sort (dir : direction) (l : list dict) : list dict :=
  match l with
  | [] => []
  | x :: l' => insert_sorted dir x (sort dir l')
  end.

(** A cursor as built by [find(...)], [.sort(...)], [.skip(...)] and
    [.limit(...)]. A limit of [0] means no limit; a negative limit [-n]
    asks for at most [n] records in a single batch. *)
Record cursor := {
  c_conversation_id : string;
  c_exclude_id : bool;
  c_sort : option direction;
  c_skip : Z;
  c_limit : Z
}.

Definition apply_sort (s : option direction) (l : list dict) : list dict :=
  match s with
  | Some dir => sort dir l
  | None => l
  end.

Definition apply_skip (n : Z) (l : list dict) : list dict := drop (Z.to_nat n) l.

Definition apply_limit (n : Z) (l : list dict) : list dict :=
  if n =? 0 then l else take (Z.to_nat (Z.abs n)) l.

Definition project (exclude_id : bool) (d : dict) : dict :=
  if exclude_id then delete "_id" d else d.

(** The records a cursor yields on a server that answers. *)
Definition select (w : t) (cur : cursor) : list dict :=
  List.map (project (c_exclude_id cur))
    (apply_limit (c_limit cur)
       (apply_skip (c_skip cur)
          (apply_sort (c_sort cur)
             (List.filter (matches (c_conversation_id cur)) (docs w))))).

(** [list(cursor)]. *)
Definition to_list (w : t) (cur : cursor) : result (list dict) :=
  match query_fault w with
  | Some e => Raise e
  | None => Ok (select w cur)
  end.

(** [collection.insert_one(message)]: the server assigns ["_id"]. *)
Definition insert_one (w : t) (message : dict) : result t :=
  match query_fault w with
  | Some e => Raise e
  | None =>
      Ok {| docs := docs w ++ [<["_id" := PObjectId (next_id w)]> message];
            utcnow := utcnow w;
            next_id := next_id w + 1;
            connect_fault := connect_fault w;
            query_fault := query_fault w |}
  end.

(** [collection.delete_many({"conversation_id": c})]: the number of deleted
    records and the server afterwards. *)
Definition delete_many (w : t) (c : string) : result (Z * t) :=
  match query_fault w with
  | Some e => Raise e
  | None =>
      Ok (Z.of_nat (length (List.filter (matches c) (docs w))),
          {| docs := List.filter (fun d => negb (matches c d)) (docs w);
             utcnow := utcnow w;
             next_id := next_id w;
             connect_fault := connect_fault w;
             query_fault := query_fault w |})
  end.

End Mongo.

(** ** [MongoDBClient]: the history window resolver *)

Module MongoDBClient.

Record t := {
  max_history_length : Z;
  is_connected : bool
}.

(** [__init__]: [self.max_history_length = max_history_length or
    Config.MAX_HISTORY_LENGTH]; connecting is left to [_connect]. *)
Definition init (config_max_history_length : Z) (max_history_length : option Z) : t :=
  {| max_history_length := py_or max_history_length config_max_history_length;
     is_connected := false |}.

Definition set_connected (self : t) (b : bool) : t :=
  {| max_history_length := max_history_length self; is_connected := b |}.

(** [_connect]: only connection failures are turned into [False]. *)
Definition _connect (self : t) (w : Mongo.t) : result bool * t :=
  match Mongo.connect_fault w with
  | None => (Ok true, set_connected self true)
  | Some e =>
      if isinstance e ConnectionFailure || isinstance e ServerSelectionTimeoutError
      then (Ok false, set_connected self false)
      else (Raise e, self)
  end.

(** [msg.get("role") == "user"]. *)
Definition is_user (msg : dict) : bool := py_eq (dict_get msg "role") (PStr "user").

(** The loop over [enumerate(messages)]: the first record whose role is
    ["user"] makes the two newest records go; the scan stops after the
    record at index 1. [rest] is what remains to be visited, [messages]
    the list as bound before the loop. *)
Fixpoint scan (i : nat) (rest messages : list dict) : list dict :=
  match rest with
  | [] => messages
  | msg :: rest' =>
      if is_user msg then drop 2 messages
      else if (1 <=? i)%nat then messages
      else scan (S i) rest' messages
  end.

Definition exclude_current_pair (exclude_current : bool) (messages : list dict)
    : list dict :=
  if exclude_current && (2 <=? length messages)%nat
  then scan 0 messages messages
  else messages.

Definition history_cursor (conv_id : string) (limit : Z) (exclude_current : bool)
    : Mongo.cursor :=
  {| Mongo.c_conversation_id := conv_id;
     Mongo.c_exclude_id := false;
     Mongo.c_sort := Some Mongo.DESCENDING;
     Mongo.c_skip := 0;
     Mongo.c_limit := limit + (if exclude_current then 2 else 0) |}.

(** The body of the [try] block. *)
Definition get_conversation_history_body (self : t) (w : Mongo.t)
    (conversation_id : string) (limit : Z) (exclude_current : bool)
    : result (list dict) * t :=
  let '(connected, self) :=
    if is_connected self then (Ok true, self) else _connect self w in
  match connected with
  | Raise e => (Raise e, self)
  | Ok false => (Ok [], self)
  | Ok true =>
      (messages ← Mongo.to_list w (history_cursor conversation_id limit exclude_current);
       Ok (rev (exclude_current_pair exclude_current messages)),
       self)
  end.

Definition get_conversation_history (self : t) (w : Mongo.t)
    (conversation_id : string) (limit : option Z) (exclude_current : bool)
    : result (list dict) * t :=
  let limit := py_or limit (max_history_length self) in
  let '(r, self) :=
    get_conversation_history_body self w conversation_id limit exclude_current in
  (try_except r (fun e => isinstance e Exception) (fun _ => Ok []), self).

End MongoDBClient.

(** ** [ConversationHandler]: the history tool facade *)

Module Config.

(** [config/constants.py]: [DEFAULT_MAX_HISTORY_LENGTH = 10]; the value in
    force is read from the environment. *)
Record t := { MAX_HISTORY_LENGTH : Z }.

Definition DEFAULT_MAX_HISTORY_LENGTH : Z := 10.

Definition default : t := {| MAX_HISTORY_LENGTH := DEFAULT_MAX_HISTORY_LENGTH |}.

End Config.

Module ConversationHandler.

Record t := { mongodb_client : MongoDBClient.t }.

(** The dictionary the handler returns; [error] is the optional key. *)
Record response := {
  conversation_id : string;
  messages : list dict;
  message_count : Z;
  error : option string
}.

(** [msg.get("timestamp", "").isoformat() if hasattr(..., "isoformat")
    else msg.get("timestamp", "")]: only dates have [isoformat]. *)
Definition format_timestamp (isoformat : Z → string) (msg : dict) : pyval :=
  match dict_get_default msg "timestamp" (PStr "") with
  | PTime t => PStr (isoformat t)
  | v => v
  end.

Definition format_message (isoformat : Z → string) (msg : dict) : dict :=
  {[ "role" := dict_get_default msg "role" (PStr "unknown");
     "content" := dict_get_default msg "content" (PStr "");
     "timestamp" := format_timestamp isoformat msg ]}.

Definition get_conversation_history (cfg : Config.t) (isoformat : Z → string)
    (self : t) (w : Mongo.t) (conversation_id : string) (limit : option Z)
    (exclude_current : bool) : result response * t :=
  let conv_id := conversation_id in
  let '(r, client) :=
    MongoDBClient.get_conversation_history (mongodb_client self) w conv_id
      (Some (py_or limit (Config.MAX_HISTORY_LENGTH cfg))) exclude_current in
  let body :=
    messages ← r;
    let formatted_messages := List.map (format_message isoformat) messages in
    Ok {| conversation_id := conv_id;
          messages := formatted_messages;
          message_count := Z.of_nat (length formatted_messages);
          error := None |} in
  (try_except body (fun e => isinstance e Exception)
     (fun e => Ok {| conversation_id := conversation_id;
                     messages := [];
                     message_count := 0;
                     error := Some ("Error retrieving conversation history: "
                                    +:+ exn_str e) |}),
   {| mongodb_client := client |}).

End ConversationHandler.

(** ** [MongoMemoryClient]: the connection behind the message store *)

Module MongoMemoryClient.

Record t := { is_connected : bool }.

(** [_connect]: only connection failures are turned into [False]. *)
Definition _connect (self : t) (w : Mongo.t) : result bool * t :=
  match Mongo.connect_fault w with
  | None => (Ok true, {| is_connected := true |})
  | Some e =>
      if isinstance e ConnectionFailure || isinstance e ServerSelectionTimeoutError
      then (Ok false, {| is_connected := false |})
      else (Raise e, self)
  end.

(** [__init__]: the client starts disconnected and tries to connect; what
    [_connect] returns is dropped, what it raises is not caught. *)
Definition init (w : Mongo.t) : result t :=
  let '(r, self) := _connect {| is_connected := false |} w in
  _ ← r; Ok self.

(** [get_collection]: [None] when the client is not connected and cannot
    connect. *)
Definition get_collection (self : t) (w : Mongo.t) (collection_name : string)
    : result (option string) * t :=
  if is_connected self then (Ok (Some collection_name), self)
  else
    let '(r, self) := _connect self w in
    match r with
    | Raise e => (Raise e, self)
    | Ok false => (Ok None, self)
    | Ok true => (Ok (Some collection_name), self)
    end.

End MongoMemoryClient.

(** ** [ConversationRepository]: the message store *)

Module ConversationRepository.

(** [collection] is [None] when the client could not connect at
    construction time. *)
Record t := { collection : option string }.

Definition new_message (w : Mongo.t) (conversation_id role content : string) : dict :=
  {[ "conversation_id" := PStr conversation_id;
     "role" := PStr role;
     "content" := PStr content;
     "timestamp" := PTime (Mongo.utcnow w) ]}.

Definition add_message (self : t) (w : Mongo.t)
    (conversation_id role content : string) : result (bool * Mongo.t) :=
  match collection self with
  | None => Ok (false, w)
  | Some _ =>
      try_except
        (w' ← Mongo.insert_one w (new_message w conversation_id role content);
         Ok (true, w'))
        (fun e => isinstance e PyMongoError)
        (fun _ => Ok (false, w))
  end.

(** The legacy mapping applied to [msg["type"]]. *)
Definition role_of_type (msg_type : pyval) : pyval :=
  if py_eq msg_type (PStr "human") then PStr "user"
  else if py_eq msg_type (PStr "ai") then PStr "assistant"
  else if py_eq msg_type (PStr "system") then PStr "system"
  else msg_type.

(** The body of the validation loop, for one record. *)
Definition validate_message (msg : dict) : dict :=
  let msg :=
    if dict_has msg "type" && negb (dict_has msg "role")
    then <["role" := role_of_type (dict_get msg "type")]> msg
    else msg in
  let msg :=
    if negb (dict_has msg "role") then <["role" := PStr "user"]> msg else msg in
  let msg :=
    if negb (dict_has msg "content") then <["content" := PStr ""]> msg else msg in
  msg.

Definition history_cursor (conversation_id : string) (limit : option Z) (skip : Z)
    : Mongo.cursor :=
  {| Mongo.c_conversation_id := conversation_id;
     Mongo.c_exclude_id := true;
     Mongo.c_sort := Some Mongo.ASCENDING;
     Mongo.c_skip := if 0 <? skip then skip else 0;
     Mongo.c_limit := match limit with Some n => n | None => 0 end |}.

Definition get_conversation_history (self : t) (w : Mongo.t)
    (conversation_id : string) (limit : option Z) (skip : Z)
    : result (list dict) :=
  match collection self with
  | None => Ok []
  | Some _ =>
      try_except
        (messages ← Mongo.to_list w (history_cursor conversation_id limit skip);
         Ok (List.map validate_message messages))
        (fun e => isinstance e PyMongoError)
        (fun _ => Ok [])
  end.

Definition clear_conversation (self : t) (w : Mongo.t) (conversation_id : string)
    : result (bool * Mongo.t) :=
  match collection self with
  | None => Ok (false, w)
  | Some _ =>
      try_except
        (r ← Mongo.delete_many w conversation_id; Ok (true, r.2))
        (fun e => isinstance e PyMongoError)
        (fun _ => Ok (false, w))
  end.

(** [__init__]: the collection is looked up once, when the repository is
    built. *)
Definition init (mongo_client : MongoMemoryClient.t) (w : Mongo.t)
    (collection_name : string) : result (t * MongoMemoryClient.t) :=
  let '(r, mongo_client) :=
    MongoMemoryClient.get_collection mongo_client w collection_name in
  c ← r; Ok ({| collection := c |}, mongo_client).

End ConversationRepository.

(** ** [MongoDBMemoryAdapter] and [ShortTermMemory] *)

Module MongoDBMemoryAdapter.

Record t := {
  conversation_id : string;
  repository : ConversationRepository.t;
  max_history_length : Z;
  fallback_memory : list dict
}.

Definition set_fallback_memory (self : t) (l : list dict) : t :=
  {| conversation_id := conversation_id self;
     repository := repository self;
     max_history_length := max_history_length self;
     fallback_memory := l |}.

Definition add_message (self : t) (w : Mongo.t) (role content : string)
    : result (t * Mongo.t) :=
  r ← ConversationRepository.add_message (repository self) w
        (conversation_id self) role content;
  let '(success, w') := r in
  if negb success
  then Ok (set_fallback_memory self
             (fallback_memory self ++
              [ConversationRepository.new_message w' (conversation_id self) role content]),
           w')
  else Ok (self, w').

Definition clear_conversation (self : t) (w : Mongo.t) : result (t * Mongo.t) :=
  r ← ConversationRepository.clear_conversation (repository self) w
        (conversation_id self);
  Ok (set_fallback_memory self [], r.2).

(** [get_conversation_history]: the store is asked for at most
    [max_history_length] records; the fallback memory is read only when the
    store returns nothing. *)
Definition get_conversation_history (self : t) (w : Mongo.t) : result (list dict) :=
  messages ← ConversationRepository.get_conversation_history (repository self) w
               (conversation_id self) (Some (max_history_length self)) 0;
  if py_not messages && negb (py_not (fallback_memory self)) then
    messages ← py_sorted_by_timestamp (fallback_memory self);
    Ok (if max_history_length self <? Z.of_nat (length messages)
        then py_suffix (max_history_length self) messages
        else messages)
  else Ok messages.

(** The entry built for the model from one record. *)
Definition format_entry (msg : dict) : dict :=
  {[ "role" := dict_get_default msg "role" (PStr "user");
     "content" := dict_get_default msg "content" (PStr "") ]}.

Definition format_for_llm (self : t) (w : Mongo.t) : result (list dict) :=
  history ← get_conversation_history self w;
  Ok (List.map format_entry history).

End MongoDBMemoryAdapter.

Module ShortTermMemory.

Record t := {
  conversation_id : string;
  max_history_length : Z;
  conversation_history : list dict;
  memory_adapter : option MongoDBMemoryAdapter.t
}.

Definition add_message (self : t) (w : Mongo.t) (role content : string)
    : result (t * Mongo.t) :=
  match memory_adapter self with
  | Some adapter =>
      r ← MongoDBMemoryAdapter.add_message adapter w role content;
      Ok ({| conversation_id := conversation_id self;
             max_history_length := max_history_length self;
             conversation_history := conversation_history self;
             memory_adapter := Some r.1 |}, r.2)
  | None =>
      Ok ({| conversation_id := conversation_id self;
             max_history_length := max_history_length self;
             conversation_history :=
               conversation_history self ++
               [ConversationRepository.new_message w (conversation_id self) role content];
             memory_adapter := None |}, w)
  end.

Definition get_conversation_history (self : t) (w : Mongo.t) : result (list dict) :=
  match memory_adapter self with
  | Some adapter => MongoDBMemoryAdapter.get_conversation_history adapter w
  | None =>
      Ok (if py_not (conversation_history self) then []
          else py_suffix (max_history_length self) (conversation_history self))
  end.

Definition clear_conversation (self : t) (w : Mongo.t) : result (t * Mongo.t) :=
  match memory_adapter self with
  | Some adapter =>
      r ← MongoDBMemoryAdapter.clear_conversation adapter w;
      Ok ({| conversation_id := conversation_id self;
             max_history_length := max_history_length self;
             conversation_history := conversation_history self;
             memory_adapter := Some r.1 |}, r.2)
  | None =>
      Ok ({| conversation_id := conversation_id self;
             max_history_length := max_history_length self;
             conversation_history := [];
             memory_adapter := None |}, w)
  end.

Definition format_for_llm (self : t) (w : Mongo.t) : result (list dict) :=
  match memory_adapter self with
  | Some adapter => MongoDBMemoryAdapter.format_for_llm adapter w
  | None =>
      history ← get_conversation_history self w;
      Ok (List.map MongoDBMemoryAdapter.format_entry history)
  end.

End ShortTermMemory.

(** ** [BedrockRAGAgent]: the orchestrator *)

Module BedrockRAGAgent.

(** Messages exchanged with the model runtime. *)
Inductive lc_message :=
  | HumanMessage (content : string)
  | AIMessage (content : string)
  | ToolMessage (content : string)
  | SystemMessage (content : string).


Definition content (m : lc_message) : string :=
  match m with
  | HumanMessage c | AIMessage c | ToolMessage c | SystemMessage c => c
  end.

(** [self.agent] is set once [setup] has run; [memory] is the short-term
    memory of the conversation. *)
Record t := {
  conversation_id : string;
  agent_ready : bool;
  memory : ShortTermMemory.t
}.

Definition set_memory (self : t) (m : ShortTermMemory.t) : t :=
  {| conversation_id := conversation_id self;
     agent_ready := agent_ready self;
     memory := m |}.



(** The dictionary returned to the caller; [error] is [true] when the
    ["error": True] entry is present. *)
Record response := {
  messages : list lc_message;
  error : bool
}.






Definition get_conversation_history (self : t) (w : Mongo.t) : result (list dict) :=
  ShortTermMemory.get_conversation_history (memory self) w.

Definition clear_conversation (self : t) (w : Mongo.t) : result (t * Mongo.t) :=
  r ← ShortTermMemory.clear_conversation (memory self) w;
  Ok (set_memory self r.1, r.2).

End BedrockRAGAgent.

(** ** [BedrockRetrieverClient]: documents of the knowledge base *)

Module BedrockRetrieverClient.

(** A retrieved document. [metadata] is [None] for an object that has no
    such attribute. *)
Record Document := {
  page_content : string;
  metadata : option dict
}.

(** [retriever.get_relevant_documents] is the behaviour of the knowledge
    base behind the client. *)
Record t := {
  get_relevant_documents : string → result (list Document)
}.

Definition retrieve_documents (self : t) (query : string) : result (list Document) :=
  try_except (get_relevant_documents self query)
    (fun e => isinstance e Exception)
    (fun e => Raise e).

Definition format_documents (documents : list Document) : list dict :=
  imap (fun i doc =>
          {[ "index" := PInt (Z.of_nat i + 1);
             "content" := PStr (page_content doc);
             "metadata" := PDict (match metadata doc with
                                  | Some m => m
                                  | None => ∅
                                  end) ]})
       documents.

End BedrockRetrieverClient.

(** ** [KnowledgeBaseRetriever]: filtering retrieved sources *)

Module KnowledgeBaseRetriever.

(** [t in s] on strings: [t] occurs in [s]. *)
Definition is_substring (t s : string) : bool :=
  match String.index 0 t s with
  | Some _ => true
  | None => false
  end.

(** [type(v).__name__]. *)
Definition type_name (v : pyval) : string :=
  match v with
  | PNone => "NoneType"
  | PBool _ => "bool"
  | PInt _ => "int"
  | PStr _ => "str"
  | PTime _ => "datetime.datetime"
  | PObjectId _ => "ObjectId"
  | PDict _ => "dict"
  end.

Definition not_iterable (v : pyval) : exn :=
  {| exn_class := TypeError;
     exn_str := "argument of type '" +:+ type_name v +:+ "' is not iterable" |}.

Definition not_subscriptable (v : pyval) : exn :=
  {| exn_class := TypeError;
     exn_str := "'" +:+ type_name v +:+ "' object is not subscriptable" |}.

(** [field in container] for a string [field]: key membership in a
    dictionary, substring test in a string, [TypeError] in anything else. *)
Definition py_in (field : string) (container : pyval) : result bool :=
  match container with
  | PDict d => Ok (dict_has d field)
  | PStr s => Ok (is_substring field s)
  | v => Raise (not_iterable v)
  end.

(** [container[field]] for a string [field]. *)
Definition py_getitem (container : pyval) (field : string) : result pyval :=
  match container with
  | PDict d =>
      match d !! field with
      | Some v => Ok v
      | None => Raise {| exn_class := KeyError; exn_str := "'" +:+ field +:+ "'" |}
      end
  | PStr _ => Raise {| exn_class := TypeError;
                       exn_str := "string indices must be integers" |}
  | v => Raise (not_subscriptable v)
  end.

(** The condition of the comprehension, with the short-circuit of [and]:
    ["metadata" in source and field in source["metadata"] and
     source["metadata"][field] == value]. *)
Definition keep (field : string) (value : pyval) (source : dict) : result bool :=
  if dict_has source "metadata" then
    metadata ← py_getitem (PDict source) "metadata";
    present ← py_in field metadata;
    if present : bool then
      v ← py_getitem metadata field;
      Ok (py_eq v value)
    else Ok false
  else Ok false.

Fixpoint filter_by_metadata (sources : list dict) (field : string) (value : pyval)
    : result (list dict) :=
  match sources with
  | [] => Ok []
  | source :: sources' =>
      b ← keep field value source;
      filtered ← filter_by_metadata sources' field value;
      Ok (if b : bool then source :: filtered else filtered)
  end.

(** [sorted(l)] on strings: the order of [str] is the order of the code
    points, which is the order of the bytes of the encoded strings. *)
Definition str_le (x y : string) : Prop := String.leb x y = true.

#[global] Instance str_le_dec : RelDecision str_le.
Proof. intros x y. unfold str_le. apply _. Defined.

Definition py_sorted (l : list string) : list string := merge_sort str_le l.

Definition get_metadata_fields (sources : list dict) : list string :=
  let fields : gset string :=
    foldl (fun fields source =>
             if dict_has source "metadata" then
               match dict_get source "metadata" with
               | PDict metadata => fields ∪ dom metadata
               | _ => fields
               end
             else fields)
          ∅ sources in
  py_sorted (elements fields).

Record t := { client : BedrockRetrieverClient.t }.

(** The dictionary [retrieve] returns; [error] is [None] when the key is
    absent. *)
Record retrieval := {
  sources : list dict;
  query : string;
  document_count : Z;
  status : string;
  error : option string
}.

Definition retrieve (self : t) (query : string) : result retrieval :=
  try_except
    (documents ← BedrockRetrieverClient.retrieve_documents (client self) query;
     let sources := BedrockRetrieverClient.format_documents documents in
     Ok {| sources := sources;
           query := query;
           document_count := Z.of_nat (length sources);
           status := "success";
           error := None |})
    (fun e => isinstance e Exception)
    (fun e =>
       let error_msg := "Error in retrieval: " +:+ exn_str e in
       Ok {| sources := [];
             query := query;
             document_count := 0;
             status := "error";
             error := Some error_msg |}).

End KnowledgeBaseRetriever.

(** ** [BedrockRagHandler]: the query as the tool server expects it *)

Module BedrockRagHandler.

Record t := { retriever : KnowledgeBaseRetriever.t }.

(** The dictionary [perform_rag_query] returns; [error] is [None] when the
    key is absent. *)
Record rag_response := {
  error : option string;
  response : string;
  sources : list dict;
  query : string;
  document_count : Z
}.

(** [context] and [max_tokens] are accepted and not used. *)
Definition perform_rag_query (self : t) (query : string) : result rag_response :=
  try_except
    (result ← KnowledgeBaseRetriever.retrieve (retriever self) query;
     Ok {| error := None;
           response := "";
           sources := KnowledgeBaseRetriever.sources result;
           query := query;
           document_count := KnowledgeBaseRetriever.document_count result |})
    (fun e => isinstance e Exception)
    (fun e =>
       let error_msg := "Error retrieving documents: " +:+ exn_str e in
       Ok {| error := Some error_msg;
             response := "";
             sources := [];
             query := query;
             document_count := 0 |}).

End BedrockRagHandler.

(** ** [bedrockRag_mcp_server]: the two tools *)

Module BedrockRagMcpServer.

Record DocumentRetrievalRequest := {
  rq_query : string;
  rq_context : option string;
  rq_max_tokens : option Z
}.

Record DocumentRetrievalResponse := {
  sources : list dict;
  query : string;
  document_count : option Z;
  error : option string
}.

Record MetadataFilterRequest := {
  rq_sources : list dict;
  rq_field : string;
  rq_value : pyval
}.

Record MetadataFilterResponse := {
  filtered_sources : list dict;
  field : string;
  value : pyval;
  original_count : Z;
  filtered_count : Z;
  filter_error : option string
}.

(** [bool(s)] for a string. *)
Definition py_truthy (s : string) : bool :=
  match s with
  | EmptyString => false
  | String _ _ => true
  end.

Definition retrieve_documents (rag_handler : BedrockRagHandler.t)
    (request : DocumentRetrievalRequest) : result DocumentRetrievalResponse :=
  try_except
    (result ← BedrockRagHandler.perform_rag_query rag_handler (rq_query request);
     if match BedrockRagHandler.error result with
        | Some e => py_truthy e
        | None => false
        end
     then Ok {| query := rq_query request;
                sources := [];
                document_count := Some 0;
                error := BedrockRagHandler.error result |}
     else Ok {| query := rq_query request;
                sources := BedrockRagHandler.sources result;
                document_count := Some (BedrockRagHandler.document_count result);
                error := None |})
    (fun e => isinstance e Exception)
    (fun e =>
       let error_msg := "Error retrieving documents: " +:+ exn_str e in
       Ok {| query := rq_query request;
             sources := [];
             document_count := Some 0;
             error := Some error_msg |}).

Definition filter_by_metadata (request : MetadataFilterRequest)
    : result MetadataFilterResponse :=
  try_except
    (filtered_sources ← KnowledgeBaseRetriever.filter_by_metadata
                          (rq_sources request) (rq_field request) (rq_value request);
     Ok {| filtered_sources := filtered_sources;
           field := rq_field request;
           value := rq_value request;
           original_count := Z.of_nat (length (rq_sources request));
           filtered_count := Z.of_nat (length filtered_sources);
           filter_error := None |})
    (fun e => isinstance e Exception)
    (fun e =>
       let error_msg := "Error filtering documents: " +:+ exn_str e in
       Ok {| filtered_sources := [];
             field := rq_field request;
             value := rq_value request;
             original_count := Z.of_nat (length (rq_sources request));
             filtered_count := 0;
             filter_error := Some error_msg |}).

End BedrockRagMcpServer.

(** ** Predicates used in the statements *)

(** [x] comes strictly before [y] in the order of a sort in direction [dir]. *)
Definition doc_lt (dir : Mongo.direction) (x y : dict) : Prop :=
  Mongo.doc_le dir x y = true ∧ Mongo.doc_le dir y x = false.

(** [x] precedes every element of [l]. *)
Definition below (dir : Mongo.direction) (x : dict) (l : list dict) : Prop :=
  Forall (fun y => Mongo.doc_le dir x y = true) l.

Inductive ordered (dir : Mongo.direction) : list dict → Prop :=
  | ordered_nil : ordered dir []
  | ordered_cons x l : below dir x l → ordered dir l → ordered dir (x :: l).

(** The client can reach the server: it is connected already, or connecting
    succeeds. *)
Definition reachable (c : MongoDBClient.t) (w : Mongo.t) : Prop :=
  MongoDBClient.is_connected c = true ∨ Mongo.connect_fault w = None.

(** The client after a call that found the server reachable. *)
Definition connected (c : MongoDBClient.t) : MongoDBClient.t :=
  if MongoDBClient.is_connected c then c else MongoDBClient.set_connected c true.

(** The records of a conversation, newest first, as the resolver's query
    orders them. *)
Definition newest_first (w : Mongo.t) (conv : string) : list dict :=
  Mongo.sort Mongo.DESCENDING (List.filter (Mongo.matches conv) (Mongo.docs w)).

(** The window the resolver hands back on a reachable server that answers:
    the fetched records, trimmed by the exclusion rule, oldest first. *)
Definition resolved_window (c : MongoDBClient.t) (w : Mongo.t) (conv : string)
    (limit : option Z) (excl : bool) : list dict :=
  rev (MongoDBClient.exclude_current_pair excl
         (Mongo.apply_limit
            (py_or limit (MongoDBClient.max_history_length c) +
             (if excl then 2 else 0))
            (newest_first w conv))).

(** The records the repository's query delivers, before validation. *)
Definition stored_window (w : Mongo.t) (conv : string) (limit : option Z) (skip : Z)
    : list dict :=
  Mongo.select w (ConversationRepository.history_cursor conv limit skip).

(** The legacy migration in the words of the specification: [human] to
    [user], [ai] to [assistant], [system] to [system], anything else
    unchanged. *)
Definition spec_role (ty : pyval) : pyval :=
  match ty with
  | PStr s =>
      if decide (s = "human") then PStr "user"
      else if decide (s = "ai") then PStr "assistant"
      else if decide (s = "system") then PStr "system"
      else PStr s
  | other => other
  end.

(** No record of the conversation is stored. *)
Definition unknown_conversation (w : Mongo.t) (conv : string) : Prop :=
  List.filter (Mongo.matches conv) (Mongo.docs w) = [].

(** A storage failure as the resolver meets it: the server cannot be
    connected to, or the query raises. *)
Definition resolver_failure (c : MongoDBClient.t) (w : Mongo.t) : Prop :=
  (MongoDBClient.is_connected c = false ∧ is_Some (Mongo.connect_fault w)) ∨
  is_Some (Mongo.query_fault w).

(** A storage failure that the repository absorbs: no collection, or a
    query that raises an error of the driver's class. *)
Definition repository_failure (r : ConversationRepository.t) (w : Mongo.t) : Prop :=
  ConversationRepository.collection r = None ∨
  ∃ e, Mongo.query_fault w = Some e ∧ isinstance e PyMongoError = true.

(** Whatever a data operation raises on [w] is an error of the driver's
    class. *)
Definition tolerated (w : Mongo.t) : Prop :=
  ∀ e, Mongo.query_fault w = Some e → isinstance e PyMongoError = true.




(** The filter condition in the words of the specification: the source has
    metadata, a mapping, that contains [field] with a value equal to
    [value]. *)
Definition has_metadata_value (field : string) (value : pyval) (source : dict) : bool :=
  match source !! "metadata" with
  | Some (PDict metadata) =>
      match metadata !! field with
      | Some v => py_eq v value
      | None => false
      end
  | _ => false
  end.

(** The metadata of the source, when present, is a mapping. *)
Definition mapping_metadata (source : dict) : Prop :=
  ∀ v, source !! "metadata" = Some v → ∃ metadata, v = PDict metadata.

(** The record carries a date under [timestamp]. *)
Definition dated (m : dict) : Prop := ∃ t, m !! "timestamp" = Some (PTime t).

(** The filter condition can be evaluated on the source: it has no
    metadata, or its metadata is a mapping, or its metadata is a string in
    which [field] does not occur. *)
Definition filterable (field : string) (source : dict) : Prop :=
  match source !! "metadata" with
  | None => True
  | Some (PDict _) => True
  | Some (PStr s) => KnowledgeBaseRetriever.is_substring field s = false
  | Some _ => False
  end.

(** [field] is a key of the metadata of [source], a mapping. *)
Definition metadata_field (field : string) (source : dict) : Prop :=
  ∃ metadata, source !! "metadata" = Some (PDict metadata) ∧
              is_Some (metadata !! field).

(** ** Sample data *)

Module Sample.

Definition msg (conv role content : string) (ts : Z) : dict :=
  {[ "conversation_id" := PStr conv;
     "role" := PStr role;
     "content" := PStr content;
     "timestamp" := PTime ts ]}.

(** A record written before the [role] field existed. *)
Definition legacy (conv type content : string) (ts : Z) : dict :=
  {[ "conversation_id" := PStr conv;
     "type" := PStr type;
     "content" := PStr content;
     "timestamp" := PTime ts ]}.

Definition server (l : list dict) : Mongo.t :=
  {| Mongo.docs := l;
     Mongo.utcnow := 1000;
     Mongo.next_id := 0;
     Mongo.connect_fault := None;
     Mongo.query_fault := None |}.

Definition failing (e : exn) (l : list dict) : Mongo.t :=
  {| Mongo.docs := l;
     Mongo.utcnow := 1000;
     Mongo.next_id := 0;
     Mongo.connect_fault := None;
     Mongo.query_fault := Some e |}.

Definition client : MongoDBClient.t :=
  {| MongoDBClient.max_history_length := 10; MongoDBClient.is_connected := true |}.

Definition u1 := msg "c1" "user" "hello" 1.
Definition a1 := msg "c1" "assistant" "hi, how can I help?" 2.
Definition u2 := msg "c1" "user" "what did I say before?" 3.
Definition a2 := msg "c1" "assistant" "you said hello" 4.
Definition other := msg "c2" "user" "unrelated" 5.

(** Stored out of order and next to another conversation. *)
Definition four_messages : Mongo.t := server [a2; u1; other; u2; a1].

(** A conversation whose two newest records are legacy ones. *)
Definition l1 := legacy "c1" "human" "and before that?" 5.
Definition l2 := legacy "c1" "ai" "you greeted me" 6.
Definition legacy_tail : Mongo.t := server [u1; a1; l1; l2].

(** Twenty records with timestamps 1 to 20; users write at odd times and
    the assistant at even times, except that the record at time 19 is a
    second message of the assistant. *)
Definition role_at (i : nat) : string :=
  if Nat.even i || (i =? 19)%nat then "assistant" else "user".

Definition twenty : Mongo.t :=
  server (List.map (fun i => msg "c1" (role_at i) "text" (Z.of_nat i)) (seq 1 20)).

(** A record with neither [role], [type] nor [content]. *)
Definition bare : dict :=
  {[ "conversation_id" := PStr "c1"; "timestamp" := PTime 7 ]}.

(** A stand-in for the rendering of dates. *)
Definition isoformat (t : Z) : string := "T+" +:+ pretty t.

Definition handler : ConversationHandler.t :=
  {| ConversationHandler.mongodb_client := client |}.

Definition repository : ConversationRepository.t :=
  {| ConversationRepository.collection := Some "conversations" |}.

(** An error of the BSON decoder, which is not an error of the driver's
    class. *)
Definition invalid_bson : exn :=
  {| exn_class := InvalidBSON; exn_str := "year 0 is out of range" |}.

Definition server_timeout : exn :=
  {| exn_class := ServerSelectionTimeoutError; exn_str := "localhost:27017: timed out" |}.

Definition en : dict := {[ "metadata" := PDict {[ "lang" := PStr "en" ]} ]}.
Definition fr : dict := {[ "metadata" := PDict {[ "lang" := PStr "fr" ]} ]}.

(** A source whose metadata is [None]. *)
Definition null_metadata : dict := {[ "index" := PInt 1; "metadata" := PNone ]}.

(** The agent of a conversation kept in process memory, and one whose
    memory is backed by the repository. *)
Definition in_process_memory : ShortTermMemory.t :=
  {| ShortTermMemory.conversation_id := "c1";
     ShortTermMemory.max_history_length := 10;
     ShortTermMemory.conversation_history := [];
     ShortTermMemory.memory_adapter := None |}.

Definition stored_memory : ShortTermMemory.t :=
  {| ShortTermMemory.conversation_id := "c1";
     ShortTermMemory.max_history_length := 10;
     ShortTermMemory.conversation_history := [];
     ShortTermMemory.memory_adapter :=
       Some {| MongoDBMemoryAdapter.conversation_id := "c1";
               MongoDBMemoryAdapter.repository := repository;
               MongoDBMemoryAdapter.max_history_length := 10;
               MongoDBMemoryAdapter.fallback_memory := [] |} |}.






(** A client that has not connected yet, and a server that cannot be
    reached. *)
Definition disconnected_client : MongoDBClient.t :=
  {| MongoDBClient.max_history_length := 10; MongoDBClient.is_connected := false |}.

Definition unreachable (l : list dict) : Mongo.t :=
  {| Mongo.docs := l;
     Mongo.utcnow := 1000;
     Mongo.next_id := 0;
     Mongo.connect_fault := Some server_timeout;
     Mongo.query_fault := Some server_timeout |}.

(** An adapter whose store cannot be used and whose fallback memory holds
    three messages, written out of order. *)
Definition offline_adapter : MongoDBMemoryAdapter.t :=
  {| MongoDBMemoryAdapter.conversation_id := "c1";
     MongoDBMemoryAdapter.repository := {| ConversationRepository.collection := None |};
     MongoDBMemoryAdapter.max_history_length := 2;
     MongoDBMemoryAdapter.fallback_memory := [a1; u2; u1] |}.

Definition online_adapter : MongoDBMemoryAdapter.t :=
  {| MongoDBMemoryAdapter.conversation_id := "c1";
     MongoDBMemoryAdapter.repository := repository;
     MongoDBMemoryAdapter.max_history_length := 2;
     MongoDBMemoryAdapter.fallback_memory := [other] |}.

(** Two documents of the knowledge base, one without metadata, a knowledge
    base that returns them and one that fails. *)
Definition doc_en : BedrockRetrieverClient.Document :=
  {| BedrockRetrieverClient.page_content := "Bedrock is a managed service.";
     BedrockRetrieverClient.metadata :=
       Some {[ "lang" := PStr "en"; "source" := PStr "s3://kb/a.txt" ]} |}.

Definition doc_plain : BedrockRetrieverClient.Document :=
  {| BedrockRetrieverClient.page_content := "No metadata here.";
     BedrockRetrieverClient.metadata := None |}.

Definition access_denied : exn :=
  {| exn_class := RuntimeError; exn_str := "AccessDeniedException" |}.

Definition rag_handler (out : result (list BedrockRetrieverClient.Document))
    : BedrockRagHandler.t :=
  {| BedrockRagHandler.retriever :=
       {| KnowledgeBaseRetriever.client :=
            {| BedrockRetrieverClient.get_relevant_documents := fun _ => out |} |} |}.

Definition retrieval_request : BedrockRagMcpServer.DocumentRetrievalRequest :=
  {| BedrockRagMcpServer.rq_query := "what is bedrock?";
     BedrockRagMcpServer.rq_context := None;
     BedrockRagMcpServer.rq_max_tokens := None |}.

End Sample.

(** * Properties *)

(** ** Python values and exceptions *)

Lemma py_eq_str_iff (v : pyval) (s : string) :
  py_eq v (PStr s) = true ↔ v = PStr s.
Proof.
  destruct v; simpl; try (split; [discriminate | intros [=]]).
  rewrite bool_decide_eq_true. split; [intros -> | intros [=]]; done.
Qed.

Lemma is_user_iff (msg : dict) :
  MongoDBClient.is_user msg = true ↔ msg !! "role" = Some (PStr "user").
Proof.
  unfold MongoDBClient.is_user, dict_get. rewrite py_eq_str_iff.
  destruct (msg !! "role") as [v|]; simpl; split; congruence.
Qed.

Lemma is_user_no_role (msg : dict) :
  msg !! "role" = None → MongoDBClient.is_user msg = false.
Proof.
  intros H. unfold MongoDBClient.is_user, dict_get. rewrite H. reflexivity.
Qed.

Lemma isinstance_Exception (e : exn) : isinstance e Exception = true.
Proof. destruct e as [[] ?]; reflexivity. Qed.

Lemma try_except_Exception {A} (r : result A) (h : exn → result A) (a : A) :
  (∀ e, h e = Ok a) →
  ∃ a', try_except r (fun e => isinstance e Exception) h = Ok a'.
Proof.
  intros Hh. destruct r as [x|e]; simpl; [by eexists |].
  rewrite isinstance_Exception, Hh. by eexists.
Qed.

(** ** The server's sort *)

Section sorting.
Context (dir : Mongo.direction).

Lemma key_le_total a b : Mongo.key_le a b = true ∨ Mongo.key_le b a = true.
Proof. destruct a, b; simpl; auto; lia. Qed.

Lemma key_le_trans a b c :
  Mongo.key_le a b = true → Mongo.key_le b c = true → Mongo.key_le a c = true.
Proof. destruct a, b, c; simpl; auto; try discriminate; lia. Qed.

Lemma doc_le_total x y : Mongo.doc_le dir x y = true ∨ Mongo.doc_le dir y x = true.
Proof. destruct dir; simpl; apply key_le_total. Qed.

Lemma doc_le_trans x y z :
  Mongo.doc_le dir x y = true → Mongo.doc_le dir y z = true →
  Mongo.doc_le dir x z = true.
Proof. destruct dir; simpl; eauto using key_le_trans. Qed.

Lemma insert_sorted_perm x l : Mongo.insert_sorted dir x l ≡ₚ x :: l.
Proof.
  induction l as [|y l IH]; simpl; [done |].
  destruct (Mongo.doc_le dir x y); [done |].
  rewrite IH. apply Permutation_swap.
Qed.

Lemma sort_perm l : Mongo.sort dir l ≡ₚ l.
Proof.
  induction l as [|x l IH]; simpl; [done |].
  by rewrite insert_sorted_perm, IH.
Qed.

Lemma insert_sorted_ordered x l : ordered dir l → ordered dir (Mongo.insert_sorted dir x l).
Proof.
  induction 1 as [|y l Hy Hl IH]; simpl.
  - repeat constructor.
  - destruct (Mongo.doc_le dir x y) eqn:E.
    + constructor; [| by constructor].
      constructor; [done |].
      eapply Forall_impl; [exact Hy |]. intros z Hz. eauto using doc_le_trans.
    + constructor; [| done].
      unfold below. rewrite insert_sorted_perm.
      constructor; [| done].
      destruct (doc_le_total x y); congruence.
Qed.

Lemma sort_ordered l : ordered dir (Mongo.sort dir l).
Proof.
  induction l; simpl; [constructor | by apply insert_sorted_ordered].
Qed.

(** A list in strict order is the only ordered arrangement of its
    elements. *)
Lemma ordered_strict_unique (s l : list dict) :
  StronglySorted (doc_lt dir) l → ordered dir s → s ≡ₚ l → s = l.
Proof.
  intros Hl. revert s.
  induction Hl as [|x l Hl IH Hx]; intros s Hs Hp.
  - by apply Permutation_nil_r in Hp.
  - destruct Hs as [|y s Hy Hs].
    + by apply Permutation_nil_cons in Hp.
    + assert (y = x) as ->.
      { assert (Hyin : y ∈ x :: l) by (rewrite <- Hp; left).
        assert (Hxin : x ∈ y :: s) by (rewrite Hp; left).
        apply elem_of_cons in Hyin as [-> | Hyin]; [done |].
        apply elem_of_cons in Hxin as [-> | Hxin]; [done |].
        rewrite Forall_forall in Hx. destruct (Hx y Hyin) as [_ Hf].
        unfold below in Hy. rewrite Forall_forall in Hy.
        specialize (Hy x Hxin). congruence. }
      f_equal. apply IH; [done |]. by apply Permutation_cons_inv in Hp.
Qed.

Lemma sort_strict (l l' : list dict) :
  l ≡ₚ l' → StronglySorted (doc_lt dir) l' → Mongo.sort dir l = l'.
Proof.
  intros Hp Hl'. apply ordered_strict_unique; [done | apply sort_ordered |].
  by rewrite sort_perm.
Qed.

End sorting.

(** ** The history window resolver *)

Lemma select_history (w : Mongo.t) (conv : string) (n : Z) (excl : bool) :
  Mongo.select w (MongoDBClient.history_cursor conv n excl) =
  Mongo.apply_limit (n + (if excl then 2 else 0)) (newest_first w conv).
Proof.
  unfold Mongo.select, MongoDBClient.history_cursor, Mongo.apply_skip, newest_first.
  simpl. unfold Mongo.project. by rewrite map_id.
Qed.

(** On a reachable server that answers the query, the resolver returns the
    fetched window, trimmed by the exclusion rule, oldest first. *)
Lemma resolve_reachable (c : MongoDBClient.t) (w : Mongo.t) (conv : string)
    (limit : option Z) (excl : bool) :
  reachable c w → Mongo.query_fault w = None →
  MongoDBClient.get_conversation_history c w conv limit excl =
  (Ok (rev (MongoDBClient.exclude_current_pair excl
              (Mongo.apply_limit
                 (py_or limit (MongoDBClient.max_history_length c) +
                  (if excl then 2 else 0))
                 (newest_first w conv)))),
   connected c).
Proof.
  intros Hr Hq.
  unfold MongoDBClient.get_conversation_history,
    MongoDBClient.get_conversation_history_body, connected.
  destruct (MongoDBClient.is_connected c) eqn:Hc.
  - unfold Mongo.to_list. rewrite Hq. simpl. by rewrite select_history.
  - destruct Hr as [Hr | Hr]; [congruence |].
    unfold MongoDBClient._connect. rewrite Hr.
    unfold Mongo.to_list. rewrite Hq. simpl. by rewrite select_history.
Qed.

(** The exclusion loop in closed form. *)
Lemma exclude_current_pair_cons2 (a b : dict) (rest : list dict) :
  MongoDBClient.exclude_current_pair true (a :: b :: rest) =
  if MongoDBClient.is_user a || MongoDBClient.is_user b then rest else a :: b :: rest.
Proof.
  unfold MongoDBClient.exclude_current_pair. simpl.
  destruct (MongoDBClient.is_user a), (MongoDBClient.is_user b); reflexivity.
Qed.

Lemma exclude_current_pair_short (excl : bool) (l : list dict) :
  (length l < 2)%nat → MongoDBClient.exclude_current_pair excl l = l.
Proof.
  intros H. unfold MongoDBClient.exclude_current_pair.
  destruct (2 <=? length l)%nat eqn:E; [apply Nat.leb_le in E; lia |].
  by rewrite andb_false_r.
Qed.

Lemma exclude_current_pair_off (l : list dict) :
  MongoDBClient.exclude_current_pair false l = l.
Proof. reflexivity. Qed.

Lemma apply_limit_all (n : Z) (l : list dict) :
  (Z.of_nat (length l) <= Z.abs n) → Mongo.apply_limit n l = l.
Proof.
  intros H. unfold Mongo.apply_limit. destruct (n =? 0); [done |].
  apply firstn_all2. lia.
Qed.

Lemma newer_before (x y : dict) (tx ty : Z) :
  Mongo.ts_key x = Some tx → Mongo.ts_key y = Some ty → tx < ty →
  doc_lt Mongo.DESCENDING y x.
Proof.
  intros Hx Hy Hlt. unfold doc_lt, Mongo.doc_le. rewrite Hx, Hy. simpl. lia.
Qed.

(** C1. For a conversation whose records are [u1], [a1], [u2], [a2] with
    timestamps [t1 < t2 < t3 < t4], where [u2] has role "user" (and [a2] is
    the assistant's reply), the resolver called with [limit = 10] and
    [exclude_current = true] on a reachable server returns exactly
    [[u1; a1]], oldest first: the scan of the newest-first list [a2; u2; a1;
    u1] meets the role "user" at index 1, drops the two newest records and
    stops. *)
Theorem resolve_excludes_current_pair
    (c : MongoDBClient.t) (w : Mongo.t) (conv : string)
    (u1 a1 u2 a2 : dict) (t1 t2 t3 t4 : Z) :
  reachable c w →
  Mongo.query_fault w = None →
  List.filter (Mongo.matches conv) (Mongo.docs w) ≡ₚ [u1; a1; u2; a2] →
  Mongo.ts_key u1 = Some t1 → Mongo.ts_key a1 = Some t2 →
  Mongo.ts_key u2 = Some t3 → Mongo.ts_key a2 = Some t4 →
  t1 < t2 → t2 < t3 → t3 < t4 →
  u2 !! "role" = Some (PStr "user") →
  a2 !! "role" = Some (PStr "assistant") →
  newest_first w conv = [a2; u2; a1; u1] ∧
  MongoDBClient.scan 0 [a2; u2; a1; u1] [a2; u2; a1; u1] = [a1; u1] ∧
  MongoDBClient.get_conversation_history c w conv (Some 10) true =
    (Ok [u1; a1], connected c).
Proof.
  intros Hr Hq Hp H1 H2 H3 H4 L12 L23 L34 Hu2 Ha2.
  assert (Hs : newest_first w conv = [a2; u2; a1; u1]).
  { unfold newest_first. apply sort_strict.
    - rewrite Hp. apply (Permutation_rev [u1; a1; u2; a2]).
    - repeat constructor; eapply newer_before; eauto; lia. }
  assert (Hu : MongoDBClient.is_user u2 = true) by by apply is_user_iff.
  assert (Ha : MongoDBClient.is_user a2 = false).
  { unfold MongoDBClient.is_user, dict_get. by rewrite Ha2. }
  split; [done |]. split.
  - simpl. by rewrite Ha, Hu.
  - rewrite resolve_reachable by done. rewrite Hs.
    rewrite apply_limit_all by (simpl; destruct (MongoDBClient.max_history_length c); lia).
    rewrite exclude_current_pair_cons2, Hu, orb_true_r. reflexivity.
Qed.

Lemma resolve_excludes_current_pair_witness :
  MongoDBClient.get_conversation_history Sample.client Sample.four_messages
    "c1" (Some 10) true = (Ok [Sample.u1; Sample.a1], Sample.client).
Proof.
  apply (resolve_excludes_current_pair Sample.client Sample.four_messages "c1"
           Sample.u1 Sample.a1 Sample.u2 Sample.a2 1 2 3 4).
  - left. reflexivity.
  - reflexivity.
  - change (List.filter (Mongo.matches "c1") (Mongo.docs Sample.four_messages))
      with [Sample.a2; Sample.u1; Sample.u2; Sample.a1].
    etransitivity; [apply perm_swap |].
    apply perm_skip. apply (Permutation_rev [Sample.a2; Sample.u2; Sample.a1]).
  - reflexivity.
  - reflexivity.
  - reflexivity.
  - reflexivity.
  - lia.
  - lia.
  - lia.
  - reflexivity.
  - reflexivity.
Defined.

Lemma length_apply_limit (n : Z) (l : list dict) :
  n ≠ 0 →
  Z.of_nat (length (Mongo.apply_limit n l)) = Z.min (Z.abs n) (Z.of_nat (length l)).
Proof.
  intros Hn. unfold Mongo.apply_limit.
  destruct (n =? 0) eqn:E; [apply Z.eqb_eq in E; done |].
  rewrite length_take. lia.
Qed.

Lemma apply_limit_prefix (n : Z) (l : list dict) :
  ∃ k, Mongo.apply_limit n l = take k l.
Proof.
  unfold Mongo.apply_limit. destruct (n =? 0).
  - exists (length l). by rewrite firstn_all.
  - by eexists.
Qed.

(** A window whose two newest records carry no [role] loses nothing. *)
Lemma exclude_current_pair_no_role (excl : bool) (a b : dict) (rest : list dict) (k : nat) :
  a !! "role" = None → b !! "role" = None →
  MongoDBClient.exclude_current_pair excl (take k (a :: b :: rest)) =
  take k (a :: b :: rest).
Proof.
  intros Ha Hb. destruct excl; [| reflexivity].
  destruct k as [|[|k]]; simpl.
  - reflexivity.
  - apply exclude_current_pair_short. simpl. lia.
  - rewrite exclude_current_pair_cons2.
    by rewrite !is_user_no_role.
Qed.

Lemma length_exclude_current_pair (excl : bool) (l : list dict) :
  (length (MongoDBClient.exclude_current_pair excl l) <= length l)%nat.
Proof.
  destruct excl; [| reflexivity].
  destruct l as [|a [|b rest]]; try (rewrite exclude_current_pair_short; simpl; lia).
  rewrite exclude_current_pair_cons2.
  destruct (MongoDBClient.is_user a || MongoDBClient.is_user b); simpl; lia.
Qed.

(** For a positive limit the window has at most [limit + 2] records with the
    exclusion on, and at most [limit] with the exclusion off. *)
Lemma resolved_window_bound (c : MongoDBClient.t) (w : Mongo.t) (conv : string)
    (limit : option Z) (excl : bool) :
  let n := py_or limit (MongoDBClient.max_history_length c) in
  0 < n →
  Z.of_nat (length (resolved_window c w conv limit excl)) <=
  n + (if excl then 2 else 0).
Proof.
  intros n Hn. unfold resolved_window. rewrite length_rev. fold n.
  pose proof (length_exclude_current_pair excl
                (Mongo.apply_limit (n + (if excl then 2 else 0)) (newest_first w conv))).
  pose proof (length_apply_limit (n + (if excl then 2 else 0)) (newest_first w conv)).
  destruct excl; lia.
Qed.

(** With the exclusion on, the limit is kept when one of the two newest
    fetched records has role "user": the pair is dropped from the
    over-fetched window. *)
Lemma resolved_window_within_limit (c : MongoDBClient.t) (w : Mongo.t) (conv : string)
    (limit : option Z) (a b : dict) (rest : list dict) :
  let n := py_or limit (MongoDBClient.max_history_length c) in
  0 < n →
  Mongo.apply_limit (n + 2) (newest_first w conv) = a :: b :: rest →
  MongoDBClient.is_user a || MongoDBClient.is_user b = true →
  resolved_window c w conv limit true = rev rest ∧
  Z.of_nat (length (resolved_window c w conv limit true)) <= n.
Proof.
  intros n Hn Hfetch Huser. unfold resolved_window. fold n.
  rewrite Hfetch, exclude_current_pair_cons2, Huser. split; [done |].
  rewrite length_rev.
  pose proof (length_apply_limit (n + 2) (newest_first w conv)) as Hlen.
  rewrite Hfetch in Hlen. simpl in Hlen. lia.
Qed.

(** C10. The exclusion inspects the literal [role] field of the raw fetched
    records; no migration of the legacy [type] field takes place on this
    path. Hence, when the two newest records of a conversation have no
    [role] field, the resolver with [exclude_current = true] drops nothing:
    it returns the whole fetched window of [limit + 2] records, which for a
    positive limit and a conversation of at least [limit + 2] records has
    [limit + 2] elements. *)
Theorem resolve_keeps_pair_without_role
    (c : MongoDBClient.t) (w : Mongo.t) (conv : string) (limit : option Z)
    (a b : dict) (rest : list dict) :
  reachable c w →
  Mongo.query_fault w = None →
  newest_first w conv = a :: b :: rest →
  a !! "role" = None →
  b !! "role" = None →
  let n := py_or limit (MongoDBClient.max_history_length c) in
  let window := Mongo.apply_limit (n + 2) (a :: b :: rest) in
  MongoDBClient.get_conversation_history c w conv limit true =
    (Ok (rev window), connected c) ∧
  (0 < n → n + 2 <= Z.of_nat (length (a :: b :: rest)) →
   Z.of_nat (length (rev window)) = n + 2).
Proof.
  intros Hr Hq Hs Ha Hb n window. split.
  - rewrite resolve_reachable by done. rewrite Hs. fold n. fold window.
    unfold window. destruct (apply_limit_prefix (n + 2) (a :: b :: rest)) as [k ->].
    by rewrite exclude_current_pair_no_role.
  - intros Hn Hlen. rewrite length_rev. unfold window.
    rewrite length_apply_limit by lia. lia.
Qed.

Lemma resolve_keeps_pair_without_role_witness :
  MongoDBClient.get_conversation_history Sample.client Sample.legacy_tail
    "c1" (Some 2) true =
  (Ok [Sample.u1; Sample.a1; Sample.l1; Sample.l2], Sample.client).
Proof.
  apply (resolve_keeps_pair_without_role Sample.client Sample.legacy_tail "c1"
           (Some 2) Sample.l2 Sample.l1 [Sample.a1; Sample.u1]).
  - left. reflexivity.
  - reflexivity.
  - reflexivity.
  - reflexivity.
  - reflexivity.
Defined.

(** C2 (the code at a failing input). Twenty stored records whose two
    newest are both from the assistant, [limit = 5] and [exclude_current =
    true]: seven records are fetched, the scan finds no role "user" among
    the first two, nothing is dropped and seven records are returned, the
    records written at times 14 to 20. *)
Theorem resolve_exceeds_limit :
  ∃ l, MongoDBClient.get_conversation_history Sample.client Sample.twenty
         "c1" (Some 5) true = (Ok l, Sample.client) ∧
       length l = 7%nat ∧
       List.map Mongo.ts_key l =
         [Some 14; Some 15; Some 16; Some 17; Some 18; Some 19; Some 20].
Proof. eexists. split; [reflexivity |]. split; reflexivity. Qed.

(** ** The message store *)

Lemma dict_has_true (d : dict) (k : string) (v : pyval) :
  d !! k = Some v → dict_has d k = true.
Proof. intros H. unfold dict_has. rewrite H. by apply bool_decide_eq_true. Qed.

Lemma dict_has_false (d : dict) (k : string) :
  d !! k = None → dict_has d k = false.
Proof.
  intros H. unfold dict_has. rewrite H. apply bool_decide_eq_false.
  by intros [? ?].
Qed.

(** The chain of comparisons of the source computes the mapping of the
    specification. *)
Lemma role_of_type_spec (ty : pyval) :
  ConversationRepository.role_of_type ty = spec_role ty.
Proof.
  unfold ConversationRepository.role_of_type, spec_role.
  destruct ty; simpl; try reflexivity.
  repeat (case_bool_decide; case_decide; try congruence).
Qed.

Lemma validate_message_legacy (raw : dict) (ty : pyval) :
  raw !! "type" = Some ty → raw !! "role" = None →
  ConversationRepository.validate_message raw !! "role" = Some (spec_role ty).
Proof.
  intros Hty Hrole. unfold ConversationRepository.validate_message.
  rewrite (dict_has_true _ _ _ Hty), (dict_has_false _ _ Hrole). simpl.
  unfold dict_get. rewrite Hty. simpl. rewrite role_of_type_spec.
  rewrite (dict_has_true (<["role" := spec_role ty]> raw) "role" (spec_role ty))
    by apply lookup_insert_eq.
  simpl. destruct (dict_has _ "content"); simpl.
  - apply lookup_insert_eq.
  - rewrite lookup_insert_ne by done. apply lookup_insert_eq.
Qed.

Lemma validate_message_no_role (raw : dict) :
  raw !! "role" = None → raw !! "type" = None →
  ConversationRepository.validate_message raw !! "role" = Some (PStr "user").
Proof.
  intros Hrole Hty. unfold ConversationRepository.validate_message.
  rewrite (dict_has_false _ _ Hty). simpl.
  rewrite (dict_has_false _ _ Hrole). simpl.
  destruct (dict_has _ "content"); simpl.
  - apply lookup_insert_eq.
  - rewrite lookup_insert_ne by done. apply lookup_insert_eq.
Qed.

Lemma validate_message_no_content (raw : dict) :
  raw !! "content" = None →
  ConversationRepository.validate_message raw !! "content" = Some (PStr "").
Proof.
  intros Hc. unfold ConversationRepository.validate_message.
  set (m1 := if dict_has raw "type" && negb (dict_has raw "role") then _ else raw).
  set (m2 := if negb (dict_has m1 "role") then _ else m1).
  assert (H2 : m2 !! "content" = None).
  { subst m2 m1.
    repeat (match goal with |- context [if ?b then _ else _] => destruct b end);
      rewrite ?lookup_insert_ne by done; exact Hc. }
  rewrite (dict_has_false _ _ H2). simpl. apply lookup_insert_eq.
Qed.

(** On a store that answers, the repository returns the queried records,
    each one validated. *)
Lemma fetch_available (r : ConversationRepository.t) (w : Mongo.t) (conv : string)
    (limit : option Z) (skip : Z) (name : string) :
  ConversationRepository.collection r = Some name →
  Mongo.query_fault w = None →
  ConversationRepository.get_conversation_history r w conv limit skip =
  Ok (List.map ConversationRepository.validate_message (stored_window w conv limit skip)).
Proof.
  intros Hc Hq. unfold ConversationRepository.get_conversation_history.
  rewrite Hc. unfold Mongo.to_list. rewrite Hq. reflexivity.
Qed.

(** C3. Every record the store's fetch returns is the validated form of a
    queried record, and for a queried record with a [type] field and no
    [role] field the validated form has its [role] set by the migration
    [human] to [user], [ai] to [assistant], [system] to [system], any other
    type value unchanged (type "foo" gives role "foo"). *)
Theorem fetch_migrates_legacy_type
    (r : ConversationRepository.t) (w : Mongo.t) (conv : string)
    (limit : option Z) (skip : Z) (name : string) :
  ConversationRepository.collection r = Some name →
  Mongo.query_fault w = None →
  ConversationRepository.get_conversation_history r w conv limit skip =
    Ok (List.map ConversationRepository.validate_message
          (stored_window w conv limit skip)) ∧
  (∀ raw ty, raw !! "type" = Some ty → raw !! "role" = None →
     ConversationRepository.validate_message raw !! "role" = Some (spec_role ty)) ∧
  spec_role (PStr "human") = PStr "user" ∧
  spec_role (PStr "ai") = PStr "assistant" ∧
  spec_role (PStr "system") = PStr "system" ∧
  spec_role (PStr "foo") = PStr "foo".
Proof.
  intros Hc Hq. split; [by eapply fetch_available |].
  split; [apply validate_message_legacy |].
  repeat split; reflexivity.
Qed.

Lemma fetch_migrates_legacy_type_witness :
  ConversationRepository.get_conversation_history Sample.repository
    Sample.legacy_tail "c1" None 0 =
  Ok (List.map ConversationRepository.validate_message
        (stored_window Sample.legacy_tail "c1" None 0)) ∧
  List.map (fun m : dict => m !! "role")
    (List.map ConversationRepository.validate_message
       (stored_window Sample.legacy_tail "c1" None 0)) =
  [Some (PStr "user"); Some (PStr "assistant"); Some (PStr "user");
   Some (PStr "assistant")].
Proof.
  split.
  - apply (fetch_migrates_legacy_type Sample.repository Sample.legacy_tail "c1"
             None 0 "conversations"); reflexivity.
  - reflexivity.
Defined.

(** ** The history tool facade *)

Lemma resolve_window (c : MongoDBClient.t) (w : Mongo.t) (conv : string)
    (limit : option Z) (excl : bool) :
  reachable c w → Mongo.query_fault w = None →
  MongoDBClient.get_conversation_history c w conv limit excl =
  (Ok (resolved_window c w conv limit excl), connected c).
Proof. apply resolve_reachable. Qed.

Lemma facade_reachable (cfg : Config.t) (isoformat : Z → string)
    (h : ConversationHandler.t) (w : Mongo.t) (conv : string) (limit : option Z)
    (excl : bool) :
  reachable (ConversationHandler.mongodb_client h) w →
  Mongo.query_fault w = None →
  let window :=
    resolved_window (ConversationHandler.mongodb_client h) w conv
      (Some (py_or limit (Config.MAX_HISTORY_LENGTH cfg))) excl in
  (ConversationHandler.get_conversation_history cfg isoformat h w conv limit excl).1 =
  Ok {| ConversationHandler.conversation_id := conv;
        ConversationHandler.messages :=
          List.map (ConversationHandler.format_message isoformat) window;
        ConversationHandler.message_count :=
          Z.of_nat (length (List.map (ConversationHandler.format_message isoformat) window));
        ConversationHandler.error := None |}.
Proof.
  intros Hr Hq window. unfold ConversationHandler.get_conversation_history.
  rewrite resolve_window by done. reflexivity.
Qed.

(** C9. A limit of [0] is falsy and is replaced by the configured default,
    at the resolver ([limit or self.max_history_length]) and at the tool
    facade ([limit or Config.MAX_HISTORY_LENGTH]). In every condition of the
    server a call with [limit = 0], like a call without a limit, is the call
    with the default limit. On a server that can be reached and answers, the
    resolver called with [limit = 0] returns the window of the default
    limit [d]: the [d] newest records of the conversation ([d + 2] are
    fetched when the exclusion is on), trimmed by the exclusion rule, oldest
    first; and the facade returns that window, formatted, for its own
    default. For a positive default and the exclusion off these are
    [min d n] records of a conversation of [n] records: all of them when
    there are at most [d], the [d] newest otherwise, and never the empty
    sequence for a conversation that has records. *)
Theorem resolve_zero_limit_is_default
    (cfg : Config.t) (isoformat : Z → string) (h : ConversationHandler.t)
    (w : Mongo.t) (conv : string) (excl : bool) :
  let c := ConversationHandler.mongodb_client h in
  let window (d : Z) :=
    rev (MongoDBClient.exclude_current_pair excl
           (Mongo.apply_limit (d + (if excl then 2 else 0)) (newest_first w conv))) in
  let d := MongoDBClient.max_history_length c in
  let d' := if Config.MAX_HISTORY_LENGTH cfg =? 0 then d
            else Config.MAX_HISTORY_LENGTH cfg in
  (MongoDBClient.get_conversation_history c w conv (Some 0) excl =
     MongoDBClient.get_conversation_history c w conv (Some d) excl ∧
   MongoDBClient.get_conversation_history c w conv None excl =
     MongoDBClient.get_conversation_history c w conv (Some d) excl ∧
   ConversationHandler.get_conversation_history cfg isoformat h w conv (Some 0) excl =
     ConversationHandler.get_conversation_history cfg isoformat h w conv
       (Some (Config.MAX_HISTORY_LENGTH cfg)) excl ∧
   ConversationHandler.get_conversation_history cfg isoformat h w conv None excl =
     ConversationHandler.get_conversation_history cfg isoformat h w conv
       (Some (Config.MAX_HISTORY_LENGTH cfg)) excl) ∧
  (reachable c w → Mongo.query_fault w = None →
   MongoDBClient.get_conversation_history c w conv (Some 0) excl =
     (Ok (window d), connected c) ∧
   (ConversationHandler.get_conversation_history cfg isoformat h w conv (Some 0) excl).1 =
     Ok {| ConversationHandler.conversation_id := conv;
           ConversationHandler.messages :=
             List.map (ConversationHandler.format_message isoformat) (window d');
           ConversationHandler.message_count := Z.of_nat (length (window d'));
           ConversationHandler.error := None |} ∧
   (0 < d → excl = false →
    window d = rev (take (Z.to_nat d) (newest_first w conv)) ∧
    Z.of_nat (length (window d)) =
      Z.min d (Z.of_nat (length (List.filter (Mongo.matches conv) (Mongo.docs w)))))).
Proof.
  intros c window d d'. split.
  { split; [| split; [| split]].
    - unfold MongoDBClient.get_conversation_history, py_or. subst d.
      by destruct (MongoDBClient.max_history_length c =? 0).
    - unfold MongoDBClient.get_conversation_history, py_or. subst d.
      by destruct (MongoDBClient.max_history_length c =? 0).
    - unfold ConversationHandler.get_conversation_history, py_or. simpl.
      by destruct (Config.MAX_HISTORY_LENGTH cfg =? 0).
    - unfold ConversationHandler.get_conversation_history, py_or. simpl.
      by destruct (Config.MAX_HISTORY_LENGTH cfg =? 0). }
  intros Hr Hq. split; [| split].
  - rewrite (resolve_reachable c w conv (Some 0) excl Hr Hq). reflexivity.
  - pose proof (facade_reachable cfg isoformat h w conv (Some 0) excl Hr Hq) as Hf.
    cbv zeta in Hf. rewrite Hf. unfold resolved_window, py_or. simpl.
    fold c d. subst window d'. cbv beta.
    by rewrite length_map.
  - intros Hd ->. subst window. cbv beta.
    assert (Happ : Mongo.apply_limit (d + 0) (newest_first w conv) =
                   take (Z.to_nat d) (newest_first w conv)).
    { unfold Mongo.apply_limit. rewrite Z.add_0_r.
      destruct (d =? 0) eqn:E; [apply Z.eqb_eq in E; lia |].
      by rewrite Z.abs_eq by lia. }
    rewrite Happ, exclude_current_pair_off. split; [reflexivity |].
    rewrite length_rev, length_take. unfold newest_first.
    rewrite <- (Permutation_length (sort_perm Mongo.DESCENDING
                  (List.filter (Mongo.matches conv) (Mongo.docs w)))).
    lia.
Qed.

Lemma resolve_zero_limit_is_default_witness :
  ∃ l resp,
    MongoDBClient.get_conversation_history Sample.client Sample.twenty "c1"
      (Some 0) false = (Ok l, Sample.client) ∧
    List.map Mongo.ts_key l =
      [Some 11; Some 12; Some 13; Some 14; Some 15;
       Some 16; Some 17; Some 18; Some 19; Some 20] ∧
    (ConversationHandler.get_conversation_history Config.default Sample.isoformat
       Sample.handler Sample.twenty "c1" (Some 0) false).1 = Ok resp ∧
    ConversationHandler.message_count resp = 10 ∧
    Z.of_nat (length l) = Z.min 10 20.
Proof.
  destruct (resolve_zero_limit_is_default Config.default Sample.isoformat
              Sample.handler Sample.twenty "c1" false) as [_ H].
  destruct H as (Hres & Hfac & Hlen); [left; reflexivity | reflexivity |].
  destruct Hlen as [_ Hlen]; [reflexivity | reflexivity |].
  eexists _, _. split; [exact Hres |]. split; [reflexivity |].
  split; [exact Hfac |]. split; [reflexivity |]. exact Hlen.
Defined.

Lemma format_message_role (isoformat : Z → string) (raw : dict) :
  ConversationHandler.format_message isoformat raw !! "role" =
  Some (dict_get_default raw "role" (PStr "unknown")).
Proof.
  unfold ConversationHandler.format_message.
  rewrite lookup_insert_eq. reflexivity.
Qed.

Lemma format_message_content (isoformat : Z → string) (raw : dict) :
  ConversationHandler.format_message isoformat raw !! "content" =
  Some (dict_get_default raw "content" (PStr "")).
Proof.
  unfold ConversationHandler.format_message.
  rewrite lookup_insert_ne by done. rewrite lookup_insert_eq. reflexivity.
Qed.

(** C4 (as stated, at a concrete input). A stored record with neither
    [role] nor [type] reaches the consumer of the history tool facade with
    role "unknown", not "user". *)
Lemma facade_defaults_role_to_unknown :
  ∃ resp m,
    (ConversationHandler.get_conversation_history Config.default Sample.isoformat
       Sample.handler (Sample.server [Sample.bare]) "c1" None false).1 = Ok resp ∧
    ConversationHandler.messages resp = [m] ∧
    m !! "role" = Some (PStr "unknown") ∧
    m !! "role" ≠ Some (PStr "user").
Proof.
  eexists _, _. split; [reflexivity |]. split; [reflexivity |].
  split; [reflexivity | discriminate].
Qed.

(** C4 (amended). Every record the store's fetch returns is the validated
    form of a queried record: a missing [content] becomes the empty string
    and a record with neither [role] nor [type] gets role "user". Every
    record in the formatted response of the history tool facade is the
    formatted form of a record of the resolver's window: a missing
    [content] becomes the empty string as well, but a missing [role] becomes
    "unknown". *)
Theorem defaults_for_missing_fields
    (r : ConversationRepository.t) (name : string) (cfg : Config.t)
    (isoformat : Z → string) (h : ConversationHandler.t) (w : Mongo.t)
    (conv : string) (limit : option Z) (skip : Z) (excl : bool) :
  ConversationRepository.collection r = Some name →
  reachable (ConversationHandler.mongodb_client h) w →
  Mongo.query_fault w = None →
  ConversationRepository.get_conversation_history r w conv limit skip =
    Ok (List.map ConversationRepository.validate_message
          (stored_window w conv limit skip)) ∧
  (∀ raw, raw !! "content" = None →
     ConversationRepository.validate_message raw !! "content" = Some (PStr "")) ∧
  (∀ raw, raw !! "role" = None → raw !! "type" = None →
     ConversationRepository.validate_message raw !! "role" = Some (PStr "user")) ∧
  (∃ resp,
     (ConversationHandler.get_conversation_history cfg isoformat h w conv limit excl).1
       = Ok resp ∧
     ConversationHandler.messages resp =
       List.map (ConversationHandler.format_message isoformat)
         (resolved_window (ConversationHandler.mongodb_client h) w conv
            (Some (py_or limit (Config.MAX_HISTORY_LENGTH cfg))) excl)) ∧
  (∀ raw, raw !! "content" = None →
     ConversationHandler.format_message isoformat raw !! "content" = Some (PStr "")) ∧
  (∀ raw, raw !! "role" = None →
     ConversationHandler.format_message isoformat raw !! "role" = Some (PStr "unknown")).
Proof.
  intros Hc Hr Hq.
  split; [by eapply fetch_available |].
  split; [apply validate_message_no_content |].
  split; [apply validate_message_no_role |].
  split.
  { eexists. split; [by apply facade_reachable | reflexivity]. }
  split.
  - intros raw H. rewrite format_message_content.
    unfold dict_get_default. by rewrite H.
  - intros raw H. rewrite format_message_role.
    unfold dict_get_default. by rewrite H.
Qed.

Lemma defaults_for_missing_fields_witness :
  ConversationRepository.get_conversation_history Sample.repository
    (Sample.server [Sample.bare]) "c1" None 0 =
  Ok (List.map ConversationRepository.validate_message
        (stored_window (Sample.server [Sample.bare]) "c1" None 0)) ∧
  List.map (fun m : dict => (m !! "role", m !! "content"))
    (List.map ConversationRepository.validate_message
       (stored_window (Sample.server [Sample.bare]) "c1" None 0)) =
  [(Some (PStr "user"), Some (PStr ""))].
Proof.
  split.
  - apply (defaults_for_missing_fields Sample.repository "conversations"
             Config.default Sample.isoformat Sample.handler
             (Sample.server [Sample.bare]) "c1" None 0 false).
    + reflexivity.
    + left. reflexivity.
    + reflexivity.
  - reflexivity.
Defined.

(** ** Storage failures *)

(** The resolver never raises. *)
Lemma resolve_total (c : MongoDBClient.t) (w : Mongo.t) (conv : string)
    (limit : option Z) (excl : bool) :
  ∃ l, (MongoDBClient.get_conversation_history c w conv limit excl).1 = Ok l.
Proof.
  unfold MongoDBClient.get_conversation_history.
  destruct (MongoDBClient.get_conversation_history_body _ _ _ _ _) as [r c'].
  simpl. by apply try_except_Exception with (a := []).
Qed.

Lemma resolve_failure_empty (c : MongoDBClient.t) (w : Mongo.t) (conv : string)
    (limit : option Z) (excl : bool) :
  resolver_failure c w →
  (MongoDBClient.get_conversation_history c w conv limit excl).1 = Ok [].
Proof.
  intros Hf.
  unfold MongoDBClient.get_conversation_history,
    MongoDBClient.get_conversation_history_body, MongoDBClient._connect,
    Mongo.to_list.
  destruct (MongoDBClient.is_connected c) eqn:Hc.
  - destruct Hf as [[Hn _] | [e He]]; [congruence |].
    rewrite He. simpl. by rewrite isinstance_Exception.
  - destruct (Mongo.connect_fault w) as [e|] eqn:Hcf.
    + destruct (isinstance e ConnectionFailure || isinstance e ServerSelectionTimeoutError);
        simpl; [reflexivity |]. by rewrite isinstance_Exception.
    + destruct Hf as [[_ [e He]] | [e He]]; [congruence |].
      rewrite He. simpl. by rewrite isinstance_Exception.
Qed.

Lemma resolve_unknown_empty (c : MongoDBClient.t) (w : Mongo.t) (conv : string)
    (limit : option Z) (excl : bool) :
  unknown_conversation w conv →
  (MongoDBClient.get_conversation_history c w conv limit excl).1 = Ok [].
Proof.
  intros Hu.
  destruct (Mongo.query_fault w) as [e|] eqn:Hq.
  { apply resolve_failure_empty. right. rewrite Hq. by eexists. }
  destruct (MongoDBClient.is_connected c) eqn:Hc.
  - rewrite resolve_reachable by (done || by left).
    unfold newest_first. rewrite Hu. simpl.
    unfold Mongo.apply_limit. simpl. rewrite take_nil.
    by destruct (_ =? 0), excl.
  - destruct (Mongo.connect_fault w) as [e|] eqn:Hcf.
    { apply resolve_failure_empty. left. split; [done |]. rewrite Hcf. by eexists. }
    rewrite resolve_reachable by (done || by right).
    unfold newest_first. rewrite Hu. simpl.
    unfold Mongo.apply_limit. simpl. rewrite take_nil.
    by destruct (_ =? 0), excl.
Qed.

Lemma stored_window_unknown (w : Mongo.t) (conv : string) (limit : option Z) (skip : Z) :
  unknown_conversation w conv → stored_window w conv limit skip = [].
Proof.
  intros Hu. unfold stored_window, Mongo.select. simpl. rewrite Hu. simpl.
  unfold Mongo.apply_skip, Mongo.apply_limit. rewrite drop_nil, take_nil.
  by destruct (_ =? 0).
Qed.

Lemma fetch_failure_empty (r : ConversationRepository.t) (w : Mongo.t) (conv : string)
    (limit : option Z) (skip : Z) :
  repository_failure r w →
  ConversationRepository.get_conversation_history r w conv limit skip = Ok [].
Proof.
  intros Hf. unfold ConversationRepository.get_conversation_history.
  destruct (ConversationRepository.collection r) as [name|] eqn:Hc; [| reflexivity].
  destruct Hf as [Hn | (e & He & Hi)]; [congruence |].
  unfold Mongo.to_list. rewrite He. simpl. by rewrite Hi.
Qed.

(** C5 (as stated, at a concrete input). The decoder raises [InvalidBSON]
    while the query of the repository runs; the error is not of the class
    the repository catches, and the fetch raises it to the caller instead of
    returning the empty sequence. *)
Lemma fetch_propagates_other_errors :
  ConversationRepository.get_conversation_history Sample.repository
    (Sample.failing Sample.invalid_bson [Sample.u1]) "c1" None 0 =
  Raise Sample.invalid_bson ∧
  ConversationRepository.get_conversation_history Sample.repository
    (Sample.failing Sample.invalid_bson [Sample.u1]) "c1" None 0 ≠ Ok [].
Proof. split; [reflexivity | discriminate]. Qed.

(** C5 (amended). The resolver never raises, and it returns the empty
    sequence on every storage failure (the server cannot be connected to, or
    the query raises any exception) and for a conversation without records.
    The store's fetch returns the empty sequence when it has no collection,
    when the query raises an error of the driver's class [PyMongoError]
    (connection failures are of that class), and, on a store that answers,
    for a conversation without records. *)
Theorem storage_failure_yields_empty
    (c : MongoDBClient.t) (r : ConversationRepository.t) (w : Mongo.t)
    (conv : string) (limit : option Z) (skip : Z) (excl : bool) :
  (∃ l, (MongoDBClient.get_conversation_history c w conv limit excl).1 = Ok l) ∧
  (resolver_failure c w ∨ unknown_conversation w conv →
   (MongoDBClient.get_conversation_history c w conv limit excl).1 = Ok []) ∧
  (repository_failure r w ∨
   (Mongo.query_fault w = None ∧ unknown_conversation w conv) →
   ConversationRepository.get_conversation_history r w conv limit skip = Ok []).
Proof.
  split; [apply resolve_total |]. split.
  - intros [Hf | Hu]; [by apply resolve_failure_empty | by apply resolve_unknown_empty].
  - intros [Hf | [Hq Hu]]; [by apply fetch_failure_empty |].
    destruct (ConversationRepository.collection r) as [name|] eqn:Hc.
    + erewrite fetch_available by done. by rewrite stored_window_unknown.
    + apply fetch_failure_empty. by left.
Qed.

Lemma storage_failure_yields_empty_witness :
  (MongoDBClient.get_conversation_history Sample.client
     (Sample.failing Sample.invalid_bson [Sample.u1]) "c1" None true).1 = Ok [] ∧
  ConversationRepository.get_conversation_history Sample.repository
    (Sample.failing Sample.server_timeout [Sample.u1]) "c1" None 0 = Ok [] ∧
  ConversationRepository.get_conversation_history Sample.repository
    Sample.four_messages "c9" None 0 = Ok [].
Proof.
  pose proof (storage_failure_yields_empty Sample.client Sample.repository
                (Sample.failing Sample.invalid_bson [Sample.u1]) "c1" None 0 true)
    as (_ & H1 & _).
  pose proof (storage_failure_yields_empty Sample.client Sample.repository
                (Sample.failing Sample.server_timeout [Sample.u1]) "c1" None 0 true)
    as (_ & _ & H2).
  pose proof (storage_failure_yields_empty Sample.client Sample.repository
                Sample.four_messages "c9" None 0 true)
    as (_ & _ & H3).
  split; [| split].
  - apply H1. left. right. simpl. eexists. reflexivity.
  - apply H2. left. right. exists Sample.server_timeout. split; reflexivity.
  - apply H3. right. split; reflexivity.
Defined.

(** ** Clearing a conversation *)

Lemma filter_matches_removed (conv : string) (l : list dict) :
  List.filter (Mongo.matches conv) (List.filter (fun d => negb (Mongo.matches conv d)) l) = [].
Proof.
  induction l as [|d l IH]; simpl; [done |].
  destruct (Mongo.matches conv d) eqn:E; simpl; [done |].
  by rewrite E.
Qed.

Lemma filter_other_kept (conv conv' : string) (l : list dict) :
  conv' ≠ conv →
  List.filter (Mongo.matches conv') (List.filter (fun d => negb (Mongo.matches conv d)) l) =
  List.filter (Mongo.matches conv') l.
Proof.
  intros Hne. induction l as [|d l IH]; simpl; [done |].
  destruct (Mongo.matches conv d) eqn:E; simpl.
  - assert (Mongo.matches conv' d = false) as ->; [| done].
    unfold Mongo.matches in *. destruct (d !! "conversation_id") as [[]|]; try done.
    apply bool_decide_eq_true in E. apply bool_decide_eq_false. congruence.
  - by rewrite IH.
Qed.

Lemma filter_none_removed (conv : string) (l : list dict) :
  List.filter (Mongo.matches conv) l = [] →
  List.filter (fun d => negb (Mongo.matches conv d)) l = l.
Proof.
  induction l as [|d l IH]; simpl; [done |].
  destruct (Mongo.matches conv d); simpl; [done |].
  intros H. by rewrite IH.
Qed.

Lemma delete_many_unknown (w : Mongo.t) (conv : string) :
  Mongo.query_fault w = None → unknown_conversation w conv →
  Mongo.delete_many w conv = Ok (0, w).
Proof.
  intros Hq Hu. unfold Mongo.delete_many. rewrite Hq.
  rewrite (filter_none_removed _ _ Hu). rewrite Hu. simpl.
  destruct w; simpl in *. by subst.
Qed.

(** Clearing leaves the condition of the server as it is. *)
Lemma clear_conversation_fault (r : ConversationRepository.t) (w w1 : Mongo.t)
    (conv : string) (b : bool) :
  ConversationRepository.clear_conversation r w conv = Ok (b, w1) →
  Mongo.query_fault w1 = Mongo.query_fault w ∧
  (b = true → unknown_conversation w1 conv).
Proof.
  unfold ConversationRepository.clear_conversation, Mongo.delete_many.
  destruct (ConversationRepository.collection r); [| by intros [= <- <-]].
  destruct (Mongo.query_fault w) as [e|] eqn:Hq; simpl.
  - destruct (isinstance e PyMongoError); [| discriminate].
    intros [= <- <-]. done.
  - intros [= <- <-]. simpl. split; [done |]. intros _. apply filter_matches_removed.
Qed.

(** C8. Clearing twice is clearing once: whatever the first call returns,
    a second call on the resulting store returns the same and leaves the
    store as it is. On a store that answers, clearing a conversation
    succeeds and leaves no record of it, while the records of other
    conversations stay, and a fetch of the cleared conversation is empty;
    clearing a conversation without records (already cleared, or never
    written) succeeds as well, deletes zero records and changes nothing. *)
Theorem clear_conversation_idempotent
    (r : ConversationRepository.t) (w : Mongo.t) (conv : string) :
  (∀ b w1, ConversationRepository.clear_conversation r w conv = Ok (b, w1) →
           ConversationRepository.clear_conversation r w1 conv = Ok (b, w1)) ∧
  (∀ name,
     ConversationRepository.collection r = Some name →
     Mongo.query_fault w = None →
     ∃ n w1,
       Mongo.delete_many w conv = Ok (n, w1) ∧
       ConversationRepository.clear_conversation r w conv = Ok (true, w1) ∧
       unknown_conversation w1 conv ∧
       (∀ conv', conv' ≠ conv →
          List.filter (Mongo.matches conv') (Mongo.docs w1) =
          List.filter (Mongo.matches conv') (Mongo.docs w)) ∧
       ConversationRepository.get_conversation_history r w1 conv None 0 = Ok [] ∧
       Mongo.delete_many w1 conv = Ok (0, w1) ∧
       (unknown_conversation w conv → n = 0 ∧ w1 = w)).
Proof.
  split.
  - intros b w1 H. destruct (clear_conversation_fault _ _ _ _ _ H) as [Hq1 Hu1].
    revert H. unfold ConversationRepository.clear_conversation.
    destruct (ConversationRepository.collection r); [| by intros [= <- <-]].
    unfold Mongo.delete_many at 1.
    destruct (Mongo.query_fault w) as [e|] eqn:Hq; simpl.
    + destruct (isinstance e PyMongoError) eqn:Hi; [| discriminate].
      intros [= <- <-]. unfold Mongo.delete_many. rewrite Hq. simpl. by rewrite Hi.
    + intros [= <- _].
      rewrite (delete_many_unknown w1 conv) by (congruence || by apply Hu1).
      reflexivity.
  - intros name Hc Hq.
    destruct (Mongo.delete_many w conv) as [[n w1]|e] eqn:Hd;
      unfold Mongo.delete_many in Hd; rewrite Hq in Hd; [| discriminate].
    injection Hd as Hn Hw1.
    assert (Hq1 : Mongo.query_fault w1 = None) by (by subst w1).
    assert (Hu1 : unknown_conversation w1 conv).
    { subst w1. apply filter_matches_removed. }
    exists n, w1. split; [done |]. split.
    { unfold ConversationRepository.clear_conversation. rewrite Hc.
      unfold Mongo.delete_many. rewrite Hq. simpl. by rewrite Hw1. }
    split; [done |]. split.
    { intros conv' Hne. subst w1. simpl. by apply filter_other_kept. }
    split.
    { erewrite fetch_available by done. by rewrite stored_window_unknown. }
    split; [by apply delete_many_unknown |].
    intros Hu. pose proof (delete_many_unknown w conv Hq Hu) as Hd0.
    unfold Mongo.delete_many in Hd0. rewrite Hq in Hd0.
    injection Hd0 as Hn0 Hw0. split; congruence.
Qed.

Lemma clear_conversation_idempotent_witness :
  ∃ n w1,
    Mongo.delete_many Sample.four_messages "c1" = Ok (n, w1) ∧
    ConversationRepository.clear_conversation Sample.repository
      Sample.four_messages "c1" = Ok (true, w1) ∧
    ConversationRepository.clear_conversation Sample.repository w1 "c1" = Ok (true, w1).
Proof.
  destruct (clear_conversation_idempotent Sample.repository
              Sample.four_messages "c1") as [Htwice Hclear].
  destruct (Hclear "conversations") as (n & w1 & H1 & H2 & _).
  - reflexivity.
  - reflexivity.
  - exists n, w1. split; [exact H1 |]. split; [exact H2 |].
    apply Htwice. exact H2.
Defined.

(** ** The orchestrator *)

Lemma new_message_role (w : Mongo.t) (conv role content : string) :
  ConversationRepository.new_message w conv role content !! "role" = Some (PStr role).
Proof. reflexivity. Qed.

Lemma new_message_content (w : Mongo.t) (conv role content : string) :
  ConversationRepository.new_message w conv role content !! "content" =
  Some (PStr content).
Proof. reflexivity. Qed.

(** When the store raises nothing but driver errors, the repository either
    reports failure and leaves the store alone, or appends the message. *)
Lemma repository_add_message_tolerated (r : ConversationRepository.t) (w : Mongo.t)
    (conv role content : string) :
  tolerated w →
  ConversationRepository.add_message r w conv role content = Ok (false, w) ∨
  ∃ w', ConversationRepository.add_message r w conv role content = Ok (true, w') ∧
        Mongo.query_fault w' = Mongo.query_fault w ∧
        Mongo.docs w' =
          (Mongo.docs w ++
           [<["_id" := PObjectId (Mongo.next_id w)]>
              (ConversationRepository.new_message w conv role content)])%list.
Proof.
  intros Ht. unfold ConversationRepository.add_message.
  destruct (ConversationRepository.collection r); [| by left].
  unfold Mongo.insert_one.
  destruct (Mongo.query_fault w) as [e|] eqn:Hq; simpl.
  - left. by rewrite (Ht e).
  - right. eexists. split; [reflexivity |]. split; reflexivity.
Qed.






(** ** Filtering sources by metadata *)

Lemma keep_mapping (field : string) (value : pyval) (source : dict) :
  mapping_metadata source →
  KnowledgeBaseRetriever.keep field value source =
  Ok (has_metadata_value field value source).
Proof.
  intros Hm.
  unfold KnowledgeBaseRetriever.keep, has_metadata_value,
    KnowledgeBaseRetriever.py_getitem, KnowledgeBaseRetriever.py_in.
  destruct (source !! "metadata") as [v|] eqn:Hv.
  - rewrite (dict_has_true _ _ _ Hv). destruct (Hm v Hv) as [metadata ->].
    unfold mbind, result_bind.
    destruct (metadata !! field) as [x|] eqn:Hx.
    + by rewrite (dict_has_true _ _ _ Hx).
    + by rewrite (dict_has_false _ _ Hx).
  - by rewrite (dict_has_false _ _ Hv).
Qed.

(** On sources whose metadata, where present, is a mapping, the function is
    the filter of the specification: it keeps, in their order, exactly the
    sources whose metadata contains the field with a value equal to the
    given one. *)
Lemma filter_by_metadata_mapping (sources : list dict) (field : string) (value : pyval) :
  Forall mapping_metadata sources →
  KnowledgeBaseRetriever.filter_by_metadata sources field value =
  Ok (List.filter (has_metadata_value field value) sources).
Proof.
  induction 1 as [|source sources Hm _ IH]; simpl; [reflexivity |].
  rewrite (keep_mapping _ _ _ Hm), IH. simpl.
  by destruct (has_metadata_value field value source).
Qed.

Lemma filter_by_metadata_example :
  KnowledgeBaseRetriever.filter_by_metadata [Sample.en; Sample.fr] "lang" (PStr "en") =
  Ok [Sample.en].
Proof. reflexivity. Qed.

(** C7 (the code at a failing input). A source whose metadata is [None]
    does not contain the field, yet it is not left out: the membership test
    [field in source["metadata"]] raises [TypeError] and the call returns no
    list at all, although the other source matches. *)
Theorem filter_by_metadata_raises_without_mapping :
  KnowledgeBaseRetriever.filter_by_metadata [Sample.en; Sample.null_metadata]
    "lang" (PStr "en") =
  Raise {| exn_class := TypeError;
           exn_str := "argument of type 'NoneType' is not iterable" |} ∧
  has_metadata_value "lang" (PStr "en") Sample.null_metadata = false ∧
  List.filter (has_metadata_value "lang" (PStr "en"))
    [Sample.en; Sample.null_metadata] = [Sample.en].
Proof. repeat split; reflexivity. Qed.

(** * Further properties of the code *)

(** ** The resolver in every condition of the server *)

(** Whatever the server does, the resolver returns the empty list or the
    window of the reachable case. *)
Lemma resolve_cases (c : MongoDBClient.t) (w : Mongo.t) (conv : string)
    (limit : option Z) (excl : bool) :
  (MongoDBClient.get_conversation_history c w conv limit excl).1 = Ok [] ∨
  (MongoDBClient.get_conversation_history c w conv limit excl).1 =
    Ok (resolved_window c w conv limit excl).
Proof.
  destruct (Mongo.query_fault w) as [e|] eqn:Hq.
  { left. apply resolve_failure_empty. right. rewrite Hq. by eexists. }
  destruct (MongoDBClient.is_connected c) eqn:Hc.
  { right. rewrite resolve_window by (done || by left). reflexivity. }
  destruct (Mongo.connect_fault w) as [e|] eqn:Hcf.
  - left. apply resolve_failure_empty. left. split; [done |]. rewrite Hcf. by eexists.
  - right. rewrite resolve_window by (done || by right). reflexivity.
Qed.

Lemma exclude_current_pair_cases (excl : bool) (l : list dict) :
  MongoDBClient.exclude_current_pair excl l = l ∨
  MongoDBClient.exclude_current_pair excl l = drop 2 l.
Proof.
  destruct excl; [| by left].
  destruct l as [|a [|b rest]]; try (left; apply exclude_current_pair_short; simpl; lia).
  rewrite exclude_current_pair_cons2.
  destruct (MongoDBClient.is_user a || MongoDBClient.is_user b); [by right | by left].
Qed.

Lemma elem_of_take_inv (k : nat) (l : list dict) (d : dict) :
  d ∈ take k l → d ∈ l.
Proof. intros H. rewrite <- (take_drop k l). apply elem_of_app. by left. Qed.

Lemma elem_of_drop_inv (k : nat) (l : list dict) (d : dict) :
  d ∈ drop k l → d ∈ l.
Proof. intros H. rewrite <- (take_drop k l). apply elem_of_app. by right. Qed.

Lemma elem_of_apply_limit (n : Z) (l : list dict) (d : dict) :
  d ∈ Mongo.apply_limit n l → d ∈ l.
Proof.
  destruct (apply_limit_prefix n l) as [k ->]. apply elem_of_take_inv.
Qed.

Lemma elem_of_exclude_current_pair (excl : bool) (l : list dict) (d : dict) :
  d ∈ MongoDBClient.exclude_current_pair excl l → d ∈ l.
Proof.
  destruct (exclude_current_pair_cases excl l) as [-> | ->]; [done |].
  apply elem_of_drop_inv.
Qed.

Lemma elem_of_newest_first (w : Mongo.t) (conv : string) (d : dict) :
  d ∈ newest_first w conv ↔ d ∈ Mongo.docs w ∧ Mongo.matches conv d = true.
Proof.
  unfold newest_first. rewrite sort_perm.
  rewrite list_elem_of_In, filter_In, <- list_elem_of_In. done.
Qed.

Lemma elem_of_resolved_window (c : MongoDBClient.t) (w : Mongo.t) (conv : string)
    (limit : option Z) (excl : bool) (d : dict) :
  d ∈ resolved_window c w conv limit excl →
  d ∈ Mongo.docs w ∧ Mongo.matches conv d = true.
Proof.
  unfold resolved_window. rewrite list_elem_of_In, <- in_rev, <- list_elem_of_In.
  intros H%elem_of_exclude_current_pair%elem_of_apply_limit.
  by apply elem_of_newest_first.
Qed.

(** X1. The resolver never raises and never hands out anything but stored
    records of the conversation asked for: every returned record is a
    document of the collection whose [conversation_id] is the requested
    one. *)
Theorem resolve_returns_stored_records
    (c : MongoDBClient.t) (w : Mongo.t) (conv : string)
    (limit : option Z) (excl : bool) :
  ∃ l, (MongoDBClient.get_conversation_history c w conv limit excl).1 = Ok l ∧
       Forall (fun d : dict =>
                 d ∈ Mongo.docs w ∧ d !! "conversation_id" = Some (PStr conv)) l.
Proof.
  destruct (resolve_cases c w conv limit excl) as [-> | ->].
  - by exists [].
  - eexists. split; [reflexivity |]. apply Forall_forall.
    intros d [Hd Hm]%elem_of_resolved_window. split; [done |].
    unfold Mongo.matches in Hm.
    destruct (d !! "conversation_id") as [[]|]; try done.
    by apply bool_decide_eq_true in Hm as ->.
Qed.

(** X2. For a positive effective limit [n] the resolver returns at most [n]
    records with the exclusion off and at most [n + 2] with the exclusion
    on, in every condition of the server. *)
Theorem resolve_length_bound
    (c : MongoDBClient.t) (w : Mongo.t) (conv : string)
    (limit : option Z) (excl : bool) :
  0 < py_or limit (MongoDBClient.max_history_length c) →
  ∃ l, (MongoDBClient.get_conversation_history c w conv limit excl).1 = Ok l ∧
       Z.of_nat (length l) <=
       py_or limit (MongoDBClient.max_history_length c) + (if excl then 2 else 0).
Proof.
  intros Hn. destruct (resolve_cases c w conv limit excl) as [-> | ->].
  - exists []. split; [done |]. simpl. destruct excl; lia.
  - eexists. split; [reflexivity |]. by apply resolved_window_bound.
Qed.

Lemma resolve_length_bound_witness :
  ∃ l, (MongoDBClient.get_conversation_history Sample.client Sample.twenty
          "c1" (Some 5) false).1 = Ok l ∧
       Z.of_nat (length l) <= 5 + 0.
Proof.
  apply (resolve_length_bound Sample.client Sample.twenty "c1" (Some 5) false).
  reflexivity.
Defined.

Lemma ordered_take (dir : Mongo.direction) (k : nat) (l : list dict) :
  ordered dir l → ordered dir (take k l).
Proof.
  intros H. revert k. induction H as [|x l Hx Hl IH]; intros [|k]; simpl.
  - constructor.
  - constructor.
  - constructor.
  - constructor; [| by apply IH].
    unfold below in *. rewrite Forall_forall in *.
    intros y Hy. apply Hx. by eapply elem_of_take_inv.
Qed.

Lemma ordered_drop (dir : Mongo.direction) (k : nat) (l : list dict) :
  ordered dir l → ordered dir (drop k l).
Proof.
  intros H. revert k. induction H as [|x l Hx Hl IH]; intros [|k]; simpl.
  - constructor.
  - constructor.
  - by constructor.
  - by apply IH.
Qed.

Lemma ordered_snoc (dir : Mongo.direction) (l : list dict) (x : dict) :
  ordered dir l → Forall (fun y => Mongo.doc_le dir y x = true) l →
  ordered dir (l ++ [x]).
Proof.
  induction 1 as [|y l Hy Hl IH]; intros Hx; simpl.
  - repeat constructor.
  - apply Forall_cons in Hx as [Hyx Hx]. constructor; [| by apply IH].
    unfold below in *. apply Forall_app. split; [done |]. by constructor.
Qed.

Lemma ordered_rev (l : list dict) :
  ordered Mongo.DESCENDING l → ordered Mongo.ASCENDING (rev l).
Proof.
  induction 1 as [|x l Hx Hl IH]; simpl; [constructor |].
  apply ordered_snoc; [done |].
  apply Forall_forall. intros y Hy.
  apply list_elem_of_In, in_rev, list_elem_of_In in Hy.
  unfold below in Hx. rewrite Forall_forall in Hx. by apply Hx.
Qed.

Lemma ordered_StronglySorted (dir : Mongo.direction) (l : list dict) :
  ordered dir l → StronglySorted (fun x y => Mongo.doc_le dir x y = true) l.
Proof. induction 1; constructor; done. Qed.

Lemma ordered_resolved_window (c : MongoDBClient.t) (w : Mongo.t) (conv : string)
    (limit : option Z) (excl : bool) :
  ordered Mongo.ASCENDING (resolved_window c w conv limit excl).
Proof.
  unfold resolved_window. apply ordered_rev.
  destruct (exclude_current_pair_cases excl
              (Mongo.apply_limit
                 (py_or limit (MongoDBClient.max_history_length c) +
                  (if excl then 2 else 0)) (newest_first w conv))) as [-> | ->];
    [| apply ordered_drop];
    (destruct (apply_limit_prefix
                 (py_or limit (MongoDBClient.max_history_length c) +
                  (if excl then 2 else 0)) (newest_first w conv)) as [k ->];
     apply ordered_take, sort_ordered).
Qed.

(** X3. The resolver returns its records oldest first: in the returned list
    the timestamp of a record is never later than the timestamp of a record
    that follows it (a record without a date counts as older than any
    date). *)
Theorem resolve_chronological
    (c : MongoDBClient.t) (w : Mongo.t) (conv : string)
    (limit : option Z) (excl : bool) :
  ∃ l, (MongoDBClient.get_conversation_history c w conv limit excl).1 = Ok l ∧
       StronglySorted
         (fun x y => Mongo.key_le (Mongo.ts_key x) (Mongo.ts_key y) = true) l.
Proof.
  destruct (resolve_cases c w conv limit excl) as [-> | ->].
  - exists []. split; [done | constructor].
  - eexists. split; [reflexivity |].
    apply (ordered_StronglySorted Mongo.ASCENDING), ordered_resolved_window.
Qed.

(** X4. The exclusion needs two fetched records: for a conversation with a
    single stored record (the question just asked, before any reply) the
    resolver returns that record for every limit, also with
    [exclude_current = true]. *)
Theorem resolve_single_record_not_excluded
    (c : MongoDBClient.t) (w : Mongo.t) (conv : string)
    (limit : option Z) (excl : bool) (m : dict) :
  reachable c w →
  Mongo.query_fault w = None →
  newest_first w conv = [m] →
  MongoDBClient.get_conversation_history c w conv limit excl = (Ok [m], connected c).
Proof.
  intros Hr Hq Hs. rewrite resolve_reachable by done. rewrite Hs.
  set (n := py_or limit (MongoDBClient.max_history_length c) + (if excl then 2 else 0)).
  assert (Mongo.apply_limit n [m] = [m]) as ->.
  { unfold Mongo.apply_limit. destruct (n =? 0) eqn:E; [done |].
    apply Z.eqb_neq in E.
    destruct (Z.to_nat (Z.abs n)) as [|k] eqn:E2; [lia | by destruct k]. }
  rewrite exclude_current_pair_short by (simpl; lia). reflexivity.
Qed.

Lemma resolve_single_record_not_excluded_witness :
  MongoDBClient.get_conversation_history Sample.client (Sample.server [Sample.u1])
    "c1" None true = (Ok [Sample.u1], Sample.client).
Proof.
  apply (resolve_single_record_not_excluded Sample.client (Sample.server [Sample.u1])
           "c1" None true Sample.u1).
  - left. reflexivity.
  - reflexivity.
  - reflexivity.
Defined.

(** X5. A client that fails to connect answers with the empty list and
    stays disconnected, so the next call connects again: once the server
    can be reached and answers, that call returns the window. *)
Theorem resolve_reconnects
    (c : MongoDBClient.t) (w1 w2 : Mongo.t) (conv : string)
    (limit : option Z) (excl : bool) (e : exn) :
  MongoDBClient.is_connected c = false →
  Mongo.connect_fault w1 = Some e →
  Mongo.connect_fault w2 = None →
  Mongo.query_fault w2 = None →
  ∃ c1,
    MongoDBClient.get_conversation_history c w1 conv limit excl = (Ok [], c1) ∧
    MongoDBClient.is_connected c1 = false ∧
    ∃ c2,
      MongoDBClient.get_conversation_history c1 w2 conv limit excl =
        (Ok (resolved_window c w2 conv limit excl), c2) ∧
      MongoDBClient.is_connected c2 = true.
Proof.
  intros Hc Hf Hc2 Hq2.
  assert (H1 : ∃ c1,
    MongoDBClient.get_conversation_history c w1 conv limit excl = (Ok [], c1) ∧
    MongoDBClient.is_connected c1 = false ∧
    MongoDBClient.max_history_length c1 = MongoDBClient.max_history_length c).
  { unfold MongoDBClient.get_conversation_history,
      MongoDBClient.get_conversation_history_body, MongoDBClient._connect.
    rewrite Hc, Hf.
    destruct (isinstance e ConnectionFailure || isinstance e ServerSelectionTimeoutError);
      simpl.
    - by eexists.
    - rewrite isinstance_Exception. by eexists. }
  destruct H1 as (c1 & H1 & Hc1 & Hmax). exists c1. split; [done |]. split; [done |].
  exists (connected c1). split.
  - rewrite resolve_window by (done || by right).
    unfold resolved_window. by rewrite Hmax.
  - unfold connected. by rewrite Hc1.
Qed.

Lemma resolve_reconnects_witness :
  ∃ c1,
    MongoDBClient.get_conversation_history Sample.disconnected_client
      (Sample.unreachable [Sample.u1]) "c1" None false = (Ok [], c1) ∧
    MongoDBClient.is_connected c1 = false ∧
    ∃ c2,
      MongoDBClient.get_conversation_history c1 (Sample.server [Sample.u1])
        "c1" None false =
        (Ok (resolved_window Sample.disconnected_client (Sample.server [Sample.u1])
               "c1" None false), c2) ∧
      MongoDBClient.is_connected c2 = true.
Proof.
  apply (resolve_reconnects Sample.disconnected_client
           (Sample.unreachable [Sample.u1]) (Sample.server [Sample.u1])
           "c1" None false Sample.server_timeout); reflexivity.
Defined.

(** ** The facade in every condition of the server *)

Lemma facade_total (cfg : Config.t) (isoformat : Z → string)
    (h : ConversationHandler.t) (w : Mongo.t) (conv : string) (limit : option Z)
    (excl : bool) :
  ∃ l,
    (MongoDBClient.get_conversation_history (ConversationHandler.mongodb_client h) w
       conv (Some (py_or limit (Config.MAX_HISTORY_LENGTH cfg))) excl).1 = Ok l ∧
    (ConversationHandler.get_conversation_history cfg isoformat h w conv limit excl).1 =
    Ok {| ConversationHandler.conversation_id := conv;
          ConversationHandler.messages :=
            List.map (ConversationHandler.format_message isoformat) l;
          ConversationHandler.message_count :=
            Z.of_nat (length (List.map (ConversationHandler.format_message isoformat) l));
          ConversationHandler.error := None |}.
Proof.
  destruct (resolve_total (ConversationHandler.mongodb_client h) w conv
              (Some (py_or limit (Config.MAX_HISTORY_LENGTH cfg))) excl) as [l Hl].
  exists l. split; [done |].
  unfold ConversationHandler.get_conversation_history.
  destruct (MongoDBClient.get_conversation_history _ _ _ _ _) as [r cl].
  simpl in Hl. subst r. reflexivity.
Qed.

(** X6. The history tool facade always returns normally and never fills in
    its [error] field: the response echoes the conversation id, its count
    is the number of messages, and a storage failure shows up only as an
    empty message list. *)
Theorem facade_never_reports_error
    (cfg : Config.t) (isoformat : Z → string) (h : ConversationHandler.t)
    (w : Mongo.t) (conv : string) (limit : option Z) (excl : bool) :
  ∃ resp,
    (ConversationHandler.get_conversation_history cfg isoformat h w conv limit excl).1
      = Ok resp ∧
    ConversationHandler.error resp = None ∧
    ConversationHandler.conversation_id resp = conv ∧
    ConversationHandler.message_count resp =
      Z.of_nat (length (ConversationHandler.messages resp)) ∧
    (resolver_failure (ConversationHandler.mongodb_client h) w →
     ConversationHandler.messages resp = [] ∧
     ConversationHandler.message_count resp = 0).
Proof.
  destruct (facade_total cfg isoformat h w conv limit excl) as (l & Hl & ->).
  eexists. split; [reflexivity |]. simpl.
  split; [done |]. split; [done |]. split; [done |].
  intros Hf. rewrite resolve_failure_empty in Hl by done. by injection Hl as <-.
Qed.

Lemma facade_never_reports_error_witness :
  ∃ resp,
    (ConversationHandler.get_conversation_history Config.default Sample.isoformat
       Sample.handler (Sample.failing Sample.server_timeout [Sample.u1])
       "c1" None true).1 = Ok resp ∧
    ConversationHandler.error resp = None ∧
    ConversationHandler.messages resp = [].
Proof.
  destruct (facade_never_reports_error Config.default Sample.isoformat
              Sample.handler (Sample.failing Sample.server_timeout [Sample.u1])
              "c1" None true) as (resp & H1 & H2 & _ & _ & H3).
  exists resp. split; [exact H1 |]. split; [exact H2 |].
  apply H3. right. simpl. eexists. reflexivity.
Defined.

Lemma format_message_dom (isoformat : Z → string) (raw : dict) :
  dom (ConversationHandler.format_message isoformat raw) =
  ({[ "role"; "content"; "timestamp" ]} : gset string).
Proof.
  unfold ConversationHandler.format_message.
  rewrite !dom_insert_L, dom_singleton_L. set_solver.
Qed.

Lemma format_message_timestamp (isoformat : Z → string) (raw : dict) (t : Z) :
  ConversationHandler.format_message isoformat raw !! "timestamp" ≠ Some (PTime t).
Proof.
  unfold ConversationHandler.format_message.
  rewrite lookup_insert_ne by done. rewrite lookup_insert_ne by done.
  rewrite lookup_singleton_eq. unfold ConversationHandler.format_timestamp.
  destruct (dict_get_default raw "timestamp" (PStr "")); congruence.
Qed.

(** X7. Every message of the facade's response has exactly the three keys
    [role], [content] and [timestamp] (the object id and the conversation
    id of the stored record are not passed on), and its timestamp is never
    a date: dates are rendered as text. *)
Theorem facade_message_shape
    (cfg : Config.t) (isoformat : Z → string) (h : ConversationHandler.t)
    (w : Mongo.t) (conv : string) (limit : option Z) (excl : bool) :
  ∃ resp,
    (ConversationHandler.get_conversation_history cfg isoformat h w conv limit excl).1
      = Ok resp ∧
    Forall (fun m : dict =>
              dom m = ({[ "role"; "content"; "timestamp" ]} : gset string) ∧
              ∀ t, m !! "timestamp" ≠ Some (PTime t))
           (ConversationHandler.messages resp).
Proof.
  destruct (facade_total cfg isoformat h w conv limit excl) as (l & _ & ->).
  eexists. split; [reflexivity |]. simpl.
  apply Forall_forall. intros m Hm.
  apply list_elem_of_In, in_map_iff in Hm as (raw & <- & _).
  split; [apply format_message_dom | apply format_message_timestamp].
Qed.

(** ** The message store: what it returns and what it keeps *)

Lemma validate_message_other (raw : dict) (k : string) :
  k ≠ "role" → k ≠ "content" →
  ConversationRepository.validate_message raw !! k = raw !! k.
Proof.
  intros Hr Hc. unfold ConversationRepository.validate_message.
  repeat (match goal with |- context [if ?b then _ else _] => destruct b end);
    rewrite ?lookup_insert_ne by done; reflexivity.
Qed.

Lemma validate_message_fixed (m : dict) :
  is_Some (m !! "role") → is_Some (m !! "content") →
  ConversationRepository.validate_message m = m.
Proof.
  intros [r Hr] [c Hc]. unfold ConversationRepository.validate_message.
  rewrite (dict_has_true _ _ _ Hr). rewrite andb_false_r. simpl.
  rewrite (dict_has_true _ _ _ Hr). simpl.
  by rewrite (dict_has_true _ _ _ Hc).
Qed.

Lemma validate_message_has_role (raw : dict) :
  is_Some (ConversationRepository.validate_message raw !! "role").
Proof.
  destruct (raw !! "role") as [r|] eqn:Hr.
  - unfold ConversationRepository.validate_message.
    rewrite (dict_has_true _ _ _ Hr). rewrite andb_false_r. simpl.
    rewrite (dict_has_true _ _ _ Hr). simpl.
    destruct (dict_has raw "content"); simpl;
      rewrite ?lookup_insert_ne by done; rewrite Hr; by eexists.
  - destruct (raw !! "type") as [ty|] eqn:Hty.
    + rewrite (validate_message_legacy _ _ Hty Hr). by eexists.
    + rewrite (validate_message_no_role _ Hr Hty). by eexists.
Qed.

Lemma validate_message_has_content (raw : dict) :
  is_Some (ConversationRepository.validate_message raw !! "content").
Proof.
  destruct (raw !! "content") as [c|] eqn:Hc.
  - unfold ConversationRepository.validate_message.
    set (m1 := if dict_has raw "type" && negb (dict_has raw "role") then _ else raw).
    set (m2 := if negb (dict_has m1 "role") then _ else m1).
    assert (H2 : m2 !! "content" = Some c).
    { subst m2 m1.
      repeat (match goal with |- context [if ?b then _ else _] => destruct b end);
        rewrite ?lookup_insert_ne by done; exact Hc. }
    rewrite (dict_has_true _ _ _ H2). simpl. rewrite H2. by eexists.
  - rewrite (validate_message_no_content _ Hc). by eexists.
Qed.

Lemma validate_message_keeps (raw : dict) (k : string) (v : pyval) :
  raw !! k = Some v → ConversationRepository.validate_message raw !! k = Some v.
Proof.
  intros Hk. unfold ConversationRepository.validate_message.
  set (m1 := if dict_has raw "type" && negb (dict_has raw "role") then _ else raw).
  assert (H1 : m1 !! k = Some v).
  { subst m1. destruct (dict_has raw "type"); simpl; [| done].
    destruct (dict_has raw "role") eqn:E; simpl; [done |].
    destruct (decide (k = "role")) as [-> | Hne]; [| by rewrite lookup_insert_ne].
    unfold dict_has in E. apply bool_decide_eq_false in E.
    exfalso. apply E. by eexists. }
  set (m2 := if negb (dict_has m1 "role") then _ else m1).
  assert (H2 : m2 !! k = Some v).
  { subst m2. destruct (dict_has m1 "role") eqn:E; simpl; [done |].
    destruct (decide (k = "role")) as [-> | Hne]; [| by rewrite lookup_insert_ne].
    unfold dict_has in E. apply bool_decide_eq_false in E.
    exfalso. apply E. by eexists. }
  destruct (dict_has m2 "content") eqn:E; simpl; [done |].
  destruct (decide (k = "content")) as [-> | Hne]; [| by rewrite lookup_insert_ne].
  unfold dict_has in E. apply bool_decide_eq_false in E.
  exfalso. apply E. by eexists.
Qed.

(** X8. Validation only fills gaps: the validated record has a [role] and a
    [content], every field of the stored record keeps its value (an
    existing [role] wins over the legacy [type]), no other field is added,
    and validating twice is validating once. *)
Theorem validate_message_fills_gaps (raw : dict) :
  is_Some (ConversationRepository.validate_message raw !! "role") ∧
  is_Some (ConversationRepository.validate_message raw !! "content") ∧
  (∀ k v, raw !! k = Some v →
          ConversationRepository.validate_message raw !! k = Some v) ∧
  (∀ k, k ≠ "role" → k ≠ "content" →
        ConversationRepository.validate_message raw !! k = raw !! k) ∧
  ConversationRepository.validate_message
    (ConversationRepository.validate_message raw) =
  ConversationRepository.validate_message raw.
Proof.
  split; [apply validate_message_has_role |].
  split; [apply validate_message_has_content |].
  split; [apply validate_message_keeps |].
  split; [apply validate_message_other |].
  apply validate_message_fixed;
    [apply validate_message_has_role | apply validate_message_has_content].
Qed.

Lemma validate_message_fills_gaps_witness :
  ConversationRepository.validate_message Sample.bare !! "timestamp" = Some (PTime 7).
Proof.
  destruct (validate_message_fills_gaps Sample.bare) as (_ & _ & H & _).
  apply H. reflexivity.
Defined.

(** What the fetch returns: nothing, the validated window, or an exception
    that is not of the driver's class. *)
Lemma fetch_cases (r : ConversationRepository.t) (w : Mongo.t) (conv : string)
    (limit : option Z) (skip : Z) (l : list dict) :
  ConversationRepository.get_conversation_history r w conv limit skip = Ok l →
  l = [] ∨
  l = List.map ConversationRepository.validate_message (stored_window w conv limit skip).
Proof.
  unfold ConversationRepository.get_conversation_history.
  destruct (ConversationRepository.collection r); [| intros [= <-]; by left].
  unfold Mongo.to_list. destruct (Mongo.query_fault w) as [e|]; simpl.
  - destruct (isinstance e PyMongoError); [| discriminate]. intros [= <-]. by left.
  - intros [= <-]. by right.
Qed.

Lemma elem_of_stored_window (w : Mongo.t) (conv : string) (limit : option Z)
    (skip : Z) (m : dict) :
  m ∈ stored_window w conv limit skip →
  ∃ d, m = delete "_id" d ∧ d ∈ Mongo.docs w ∧ Mongo.matches conv d = true.
Proof.
  unfold stored_window, Mongo.select. simpl.
  intros (d & <- & Hd)%list_elem_of_In%in_map_iff.
  apply list_elem_of_In, elem_of_apply_limit in Hd.
  unfold Mongo.apply_skip in Hd. apply elem_of_drop_inv in Hd.
  rewrite sort_perm in Hd.
  apply list_elem_of_In, filter_In in Hd as [Hd Hm].
  exists d. by rewrite list_elem_of_In.
Qed.

(** X9. Every record the store's fetch returns belongs to the conversation
    asked for, has a [role] and a [content], and carries no object id. *)
Theorem fetch_record_shape
    (r : ConversationRepository.t) (w : Mongo.t) (conv : string)
    (limit : option Z) (skip : Z) (l : list dict) :
  ConversationRepository.get_conversation_history r w conv limit skip = Ok l →
  Forall (fun m : dict =>
            m !! "conversation_id" = Some (PStr conv) ∧
            is_Some (m !! "role") ∧
            is_Some (m !! "content") ∧
            m !! "_id" = None) l.
Proof.
  intros [-> | ->]%fetch_cases; [constructor |].
  apply Forall_forall. intros m Hm.
  apply list_elem_of_In, in_map_iff in Hm as (raw & <- & Hraw).
  apply list_elem_of_In, elem_of_stored_window in Hraw as (d & -> & _ & Hd).
  split; [| split; [apply validate_message_has_role |
            split; [apply validate_message_has_content |]]].
  - rewrite validate_message_other by done. rewrite lookup_delete_ne by done.
    unfold Mongo.matches in Hd.
    destruct (d !! "conversation_id") as [[]|]; try done.
    by apply bool_decide_eq_true in Hd as ->.
  - rewrite validate_message_other by done. apply lookup_delete_eq.
Qed.

Lemma fetch_record_shape_witness :
  Forall (fun m : dict =>
            m !! "conversation_id" = Some (PStr "c1") ∧
            is_Some (m !! "role") ∧
            is_Some (m !! "content") ∧
            m !! "_id" = None)
    (List.map ConversationRepository.validate_message
       (stored_window Sample.legacy_tail "c1" None 0)).
Proof.
  apply (fetch_record_shape Sample.repository Sample.legacy_tail "c1" None 0).
  reflexivity.
Defined.

Lemma ordered_map (dir : Mongo.direction) (f : dict → dict) (l : list dict) :
  (∀ x, Mongo.ts_key (f x) = Mongo.ts_key x) →
  ordered dir l → ordered dir (List.map f l).
Proof.
  intros Hf. induction 1 as [|x l Hx Hl IH]; simpl; constructor; [| done].
  unfold below in *. rewrite Forall_forall in *.
  intros y (z & <- & Hz)%list_elem_of_In%in_map_iff.
  unfold Mongo.doc_le. rewrite !Hf.
  apply list_elem_of_In in Hz. apply (Hx z Hz).
Qed.

Lemma ts_key_validate_message (raw : dict) :
  Mongo.ts_key (ConversationRepository.validate_message raw) = Mongo.ts_key raw.
Proof. unfold Mongo.ts_key. by rewrite validate_message_other. Qed.

Lemma ts_key_project (b : bool) (d : dict) :
  Mongo.ts_key (Mongo.project b d) = Mongo.ts_key d.
Proof.
  unfold Mongo.ts_key, Mongo.project. destruct b; [| done].
  by rewrite lookup_delete_ne.
Qed.

(** X10. The store's fetch returns its records in non-decreasing order of
    timestamp (a record without a date counts as older than any date). *)
Theorem fetch_chronological
    (r : ConversationRepository.t) (w : Mongo.t) (conv : string)
    (limit : option Z) (skip : Z) (l : list dict) :
  ConversationRepository.get_conversation_history r w conv limit skip = Ok l →
  StronglySorted
    (fun x y => Mongo.key_le (Mongo.ts_key x) (Mongo.ts_key y) = true) l.
Proof.
  intros [-> | ->]%fetch_cases; [constructor |].
  apply (ordered_StronglySorted Mongo.ASCENDING).
  apply ordered_map; [apply ts_key_validate_message |].
  unfold stored_window, Mongo.select.
  apply ordered_map; [apply ts_key_project |].
  destruct (apply_limit_prefix
              (Mongo.c_limit (ConversationRepository.history_cursor conv limit skip))
              (Mongo.apply_skip
                 (Mongo.c_skip (ConversationRepository.history_cursor conv limit skip))
                 (Mongo.apply_sort
                    (Mongo.c_sort (ConversationRepository.history_cursor conv limit skip))
                    (List.filter
                       (Mongo.matches
                          (Mongo.c_conversation_id
                             (ConversationRepository.history_cursor conv limit skip)))
                       (Mongo.docs w))))) as [k ->].
  apply ordered_take, ordered_drop. simpl. apply sort_ordered.
Qed.

Lemma fetch_chronological_witness :
  StronglySorted
    (fun x y => Mongo.key_le (Mongo.ts_key x) (Mongo.ts_key y) = true)
    (List.map ConversationRepository.validate_message
       (stored_window Sample.four_messages "c1" None 0)).
Proof.
  apply (fetch_chronological Sample.repository Sample.four_messages "c1" None 0).
  reflexivity.
Defined.

Lemma apply_limit_map (f : dict → dict) (n : Z) (l : list dict) :
  Mongo.apply_limit n (List.map f l) = List.map f (Mongo.apply_limit n l).
Proof.
  unfold Mongo.apply_limit. destruct (n =? 0); [done |]. apply firstn_map.
Qed.

(** X11. Paging composes with the full fetch: on a store that answers, the
    fetch with [skip] and a positive [limit] is the slice
    [all[skip : skip + limit]] of the fetch of the whole conversation, a
    [skip] of zero or less skips nothing, and a [limit] of [0], like no
    limit, returns everything from [skip] on. *)
Theorem fetch_paging
    (r : ConversationRepository.t) (name : string) (w : Mongo.t) (conv : string) :
  ConversationRepository.collection r = Some name →
  Mongo.query_fault w = None →
  ∃ all,
    ConversationRepository.get_conversation_history r w conv None 0 = Ok all ∧
    (∀ n skip, 0 < n →
       ConversationRepository.get_conversation_history r w conv (Some n) skip =
       Ok (take (Z.to_nat n) (drop (Z.to_nat skip) all))) ∧
    (∀ skip,
       ConversationRepository.get_conversation_history r w conv (Some 0) skip =
       Ok (drop (Z.to_nat skip) all) ∧
       ConversationRepository.get_conversation_history r w conv None skip =
       Ok (drop (Z.to_nat skip) all)).
Proof.
  intros Hc Hq.
  exists (List.map ConversationRepository.validate_message
            (stored_window w conv None 0)).
  split; [by eapply fetch_available |].
  assert (Hgen : ∀ limit skip,
    List.map ConversationRepository.validate_message (stored_window w conv limit skip) =
    Mongo.apply_limit (match limit with Some n => n | None => 0 end)
      (drop (Z.to_nat skip)
         (List.map ConversationRepository.validate_message
            (stored_window w conv None 0)))).
  { intros limit skip. unfold stored_window, Mongo.select.
    cbn [ConversationRepository.history_cursor Mongo.c_limit Mongo.c_skip
         Mongo.c_sort Mongo.c_exclude_id Mongo.c_conversation_id].
    unfold Mongo.apply_skip.
    replace (Z.to_nat (if 0 <? skip then skip else 0)) with (Z.to_nat skip)
      by (destruct (0 <? skip) eqn:E; [done | apply Z.ltb_ge in E; lia]).
    change (Mongo.apply_limit 0 ?l) with l.
    change (Z.to_nat (if 0 <? 0 then 0 else 0)) with 0%nat.
    change (drop 0 ?l) with l.
    rewrite !skipn_map, !apply_limit_map. reflexivity. }
  split; [| intros skip; split].
  - intros n skip Hn. erewrite fetch_available by done. rewrite Hgen.
    unfold Mongo.apply_limit. destruct (n =? 0) eqn:E; [apply Z.eqb_eq in E; lia |].
    by rewrite Z.abs_eq by lia.
  - erewrite fetch_available by done. by rewrite Hgen.
  - erewrite fetch_available by done. by rewrite Hgen.
Qed.

Lemma fetch_paging_witness :
  ConversationRepository.get_conversation_history Sample.repository
    Sample.four_messages "c1" (Some 2) 1 = Ok [Sample.a1; Sample.u2].
Proof.
  destruct (fetch_paging Sample.repository "conversations" Sample.four_messages "c1")
    as (all & Hall & Hslice & _).
  - reflexivity.
  - reflexivity.
  - rewrite (Hslice 2 1) by lia.
    assert (all = [Sample.u1; Sample.a1; Sample.u2; Sample.a2]) as ->.
    { assert (H : Ok all = Ok [Sample.u1; Sample.a1; Sample.u2; Sample.a2])
        by (rewrite <- Hall; reflexivity).
      by injection H. }
    reflexivity.
Defined.

(** X12. Adding a message is append-only: when the call returns [True] the
    collection is the old one followed by the new record (the four fields
    of the message and the object id the server assigns), and when it
    returns [False] the collection is untouched. No stored record is ever
    changed or removed. *)
Theorem add_message_appends
    (r : ConversationRepository.t) (w w' : Mongo.t)
    (conv role content : string) (b : bool) :
  ConversationRepository.add_message r w conv role content = Ok (b, w') →
  Mongo.docs w' =
    (Mongo.docs w ++
     if b then [<["_id" := PObjectId (Mongo.next_id w)]>
                  (ConversationRepository.new_message w conv role content)]
     else [])%list.
Proof.
  unfold ConversationRepository.add_message.
  destruct (ConversationRepository.collection r);
    [| intros [= <- <-]; by rewrite app_nil_r].
  unfold Mongo.insert_one. destruct (Mongo.query_fault w) as [e|]; simpl.
  - destruct (isinstance e PyMongoError); [| discriminate].
    intros [= <- <-]. by rewrite app_nil_r.
  - intros [= <- <-]. reflexivity.
Qed.

Lemma add_message_appends_witness :
  ∃ w', ConversationRepository.add_message Sample.repository
          (Sample.server [Sample.u1]) "c1" "assistant" "hi" = Ok (true, w') ∧
        Mongo.docs w' =
          [Sample.u1;
           <["_id" := PObjectId 0]>
             (ConversationRepository.new_message (Sample.server [Sample.u1])
                "c1" "assistant" "hi")].
Proof.
  eexists. split; [reflexivity |].
  apply (add_message_appends Sample.repository (Sample.server [Sample.u1]) _
           "c1" "assistant" "hi" true).
  reflexivity.
Defined.

Lemma insert_sorted_snoc (dir : Mongo.direction) (a x : dict) (s : list dict) :
  Mongo.doc_le dir a x = true →
  Mongo.insert_sorted dir a (s ++ [x]) = (Mongo.insert_sorted dir a s ++ [x])%list.
Proof.
  intros Hax. induction s as [|y s IH]; simpl.
  - by rewrite Hax.
  - destruct (Mongo.doc_le dir a y); [done |]. by rewrite IH.
Qed.

Lemma sort_snoc (dir : Mongo.direction) (l : list dict) (x : dict) :
  Forall (fun a => Mongo.doc_le dir a x = true) l →
  Mongo.sort dir (l ++ [x]) = (Mongo.sort dir l ++ [x])%list.
Proof.
  induction 1 as [|a l Ha Hl IH]; simpl; [done |].
  rewrite IH. by apply insert_sorted_snoc.
Qed.

(** X13. Round trip. On a store that answers, where no stored record of the
    conversation is dated after the clock, adding a message succeeds and a
    following fetch of the conversation returns what it returned before,
    followed by one record with exactly the conversation id, role, content
    and timestamp of the message. *)
Theorem add_then_fetch
    (r : ConversationRepository.t) (name : string) (w : Mongo.t)
    (conv role content : string) :
  ConversationRepository.collection r = Some name →
  Mongo.query_fault w = None →
  Forall (fun d => Mongo.matches conv d = true →
                   Mongo.key_le (Mongo.ts_key d) (Some (Mongo.utcnow w)) = true)
         (Mongo.docs w) →
  ∃ before w',
    ConversationRepository.get_conversation_history r w conv None 0 = Ok before ∧
    ConversationRepository.add_message r w conv role content = Ok (true, w') ∧
    ConversationRepository.get_conversation_history r w' conv None 0 =
      Ok (before ++ [ConversationRepository.new_message w conv role content])%list.
Proof.
  intros Hc Hq Hts.
  set (new := ConversationRepository.new_message w conv role content).
  set (stored := <["_id" := PObjectId (Mongo.next_id w)]> new).
  assert (Hadd : ∃ w', ConversationRepository.add_message r w conv role content
                       = Ok (true, w') ∧
                       Mongo.query_fault w' = None ∧
                       Mongo.docs w' = (Mongo.docs w ++ [stored])%list).
  { unfold ConversationRepository.add_message, Mongo.insert_one.
    rewrite Hc, Hq. simpl. eexists. split; [reflexivity |]. by split. }
  destruct Hadd as (w' & Hadd & Hq' & Hdocs).
  exists (List.map ConversationRepository.validate_message (stored_window w conv None 0)), w'.
  split; [by eapply fetch_available |]. split; [done |].
  erewrite fetch_available by done. f_equal.
  unfold stored_window, Mongo.select.
  cbn [ConversationRepository.history_cursor Mongo.c_limit Mongo.c_skip
       Mongo.c_sort Mongo.c_exclude_id Mongo.c_conversation_id].
  change (Mongo.apply_limit 0 ?l) with l.
  unfold Mongo.apply_skip. change (Z.to_nat (if 0 <? 0 then 0 else 0)) with 0%nat.
  change (drop 0 ?l) with l. unfold Mongo.apply_sort.
  rewrite Hdocs, List.filter_app.
  assert (Hm : Mongo.matches conv stored = true).
  { unfold Mongo.matches, stored. rewrite lookup_insert_ne by done.
    change (new !! "conversation_id") with (Some (PStr conv)).
    by apply bool_decide_eq_true. }
  cbn [List.filter]. rewrite Hm.
  rewrite sort_snoc.
  - rewrite !map_app. cbn [List.map].
    assert (ConversationRepository.validate_message (Mongo.project true stored) = new)
      as ->; [| reflexivity].
    unfold Mongo.project, stored. rewrite delete_insert_eq by reflexivity.
    apply validate_message_fixed; by eexists.
  - apply Forall_forall. intros d Hd.
    apply list_elem_of_In, filter_In in Hd as [Hd Hmd].
    rewrite Forall_forall in Hts. apply list_elem_of_In in Hd.
    unfold Mongo.doc_le.
    assert (Mongo.ts_key stored = Some (Mongo.utcnow w)) as -> by reflexivity.
    by apply Hts.
Qed.

Lemma add_then_fetch_witness :
  ∃ before w',
    ConversationRepository.get_conversation_history Sample.repository
      Sample.four_messages "c1" None 0 = Ok before ∧
    ConversationRepository.add_message Sample.repository
      Sample.four_messages "c1" "user" "x" = Ok (true, w') ∧
    ConversationRepository.get_conversation_history Sample.repository w' "c1" None 0 =
      Ok (before ++ [ConversationRepository.new_message Sample.four_messages
                       "c1" "user" "x"])%list.
Proof.
  apply (add_then_fetch Sample.repository "conversations" Sample.four_messages
           "c1" "user" "x").
  - reflexivity.
  - reflexivity.
  - repeat constructor; intros _; reflexivity.
Defined.

(** ** A repository built while the server is away *)

(** X14. The repository looks its collection up once, when it is built. Built
    on a client that cannot connect, it has no collection and never gets
    one: whatever the server is like later, adding reports failure and
    stores nothing, fetching returns the empty list and clearing reports
    failure. *)
Theorem repository_built_offline
    (mc : MongoMemoryClient.t) (w : Mongo.t) (name : string) (e : exn) :
  MongoMemoryClient.is_connected mc = false →
  Mongo.connect_fault w = Some e →
  isinstance e ConnectionFailure = true →
  ∃ r mc',
    ConversationRepository.init mc w name = Ok (r, mc') ∧
    ∀ w' conv role content limit skip,
      ConversationRepository.add_message r w' conv role content = Ok (false, w') ∧
      ConversationRepository.get_conversation_history r w' conv limit skip = Ok [] ∧
      ConversationRepository.clear_conversation r w' conv = Ok (false, w').
Proof.
  intros Hc Hf Hi.
  unfold ConversationRepository.init, MongoMemoryClient.get_collection,
    MongoMemoryClient._connect.
  rewrite Hc, Hf, Hi. simpl.
  eexists _, _. split; [reflexivity |]. intros. by repeat split.
Qed.

Lemma repository_built_offline_witness :
  ∃ r mc',
    ConversationRepository.init {| MongoMemoryClient.is_connected := false |}
      (Sample.unreachable []) "conversations" = Ok (r, mc') ∧
    ConversationRepository.add_message r (Sample.server []) "c1" "user" "hello" =
      Ok (false, Sample.server []).
Proof.
  destruct (repository_built_offline {| MongoMemoryClient.is_connected := false |}
              (Sample.unreachable []) "conversations" Sample.server_timeout)
    as (r & mc' & Hinit & Hlater); try reflexivity.
  exists r, mc'. split; [exact Hinit |].
  apply (Hlater (Sample.server []) "c1" "user" "hello" None 0).
Defined.

(** ** The memory adapter *)

(** X15. The adapter loses no message while the store raises nothing but
    driver errors: either the store takes the message and the fallback
    memory stays as it is, or the store is left as it is and the message,
    with its role, content and a date, is appended to the fallback
    memory. *)
Theorem adapter_add_message_falls_back
    (a : MongoDBMemoryAdapter.t) (w : Mongo.t) (role content : string) :
  tolerated w →
  ∃ a' w',
    MongoDBMemoryAdapter.add_message a w role content = Ok (a', w') ∧
    ((Mongo.docs w' =
        (Mongo.docs w ++
         [<["_id" := PObjectId (Mongo.next_id w)]>
            (ConversationRepository.new_message w
               (MongoDBMemoryAdapter.conversation_id a) role content)])%list ∧
      a' = a) ∨
     (w' = w ∧
      MongoDBMemoryAdapter.fallback_memory a' =
        (MongoDBMemoryAdapter.fallback_memory a ++
         [ConversationRepository.new_message w
            (MongoDBMemoryAdapter.conversation_id a) role content])%list ∧
      MongoDBMemoryAdapter.repository a' = MongoDBMemoryAdapter.repository a ∧
      MongoDBMemoryAdapter.max_history_length a' =
        MongoDBMemoryAdapter.max_history_length a)).
Proof.
  intros Ht. unfold MongoDBMemoryAdapter.add_message.
  destruct (repository_add_message_tolerated
              (MongoDBMemoryAdapter.repository a) w
              (MongoDBMemoryAdapter.conversation_id a) role content Ht)
    as [-> | (w' & -> & _ & Hdocs)]; simpl.
  - eexists _, _. split; [reflexivity |]. right. by repeat split.
  - eexists _, _. split; [reflexivity |]. left. by split.
Qed.

Lemma adapter_add_message_falls_back_witness :
  ∃ a' w',
    MongoDBMemoryAdapter.add_message Sample.online_adapter
      (Sample.failing Sample.server_timeout []) "user" "hello" = Ok (a', w') ∧
    MongoDBMemoryAdapter.fallback_memory a' =
      [Sample.other;
       ConversationRepository.new_message (Sample.failing Sample.server_timeout [])
         "c1" "user" "hello"].
Proof.
  destruct (adapter_add_message_falls_back Sample.online_adapter
              (Sample.failing Sample.server_timeout []) "user" "hello")
    as (a' & w' & Hadd & Hcases).
  - intros e He. injection He as <-. reflexivity.
  - exists a', w'. split; [exact Hadd |].
    assert (H : Ok (a', w') =
                Ok (MongoDBMemoryAdapter.set_fallback_memory Sample.online_adapter
                      [Sample.other;
                       ConversationRepository.new_message
                         (Sample.failing Sample.server_timeout []) "c1" "user" "hello"],
                    Sample.failing Sample.server_timeout []))
      by (rewrite <- Hadd; reflexivity).
    injection H as -> _. reflexivity.
Defined.

(** The key under which a dated record is sorted. *)
Lemma timestamp_keys_dated (l : list dict) :
  Forall dated l →
  timestamp_keys l = Ok (List.map (fun m => (dict_get m "timestamp", m)) l).
Proof.
  induction 1 as [|m l [t Ht] _ IH]; simpl; [done |].
  rewrite Ht, IH. simpl. unfold dict_get. by rewrite Ht.
Qed.

Lemma py_insert_dated (x : dict) (s : list dict) :
  dated x → Forall dated s →
  py_insert (dict_get x "timestamp", x)
    (List.map (fun m => (dict_get m "timestamp", m)) s) =
  Ok (List.map (fun m => (dict_get m "timestamp", m))
        (Mongo.insert_sorted Mongo.ASCENDING x s)).
Proof.
  intros [tx Hx]. induction 1 as [|y s [ty Hy] _ IH]; [reflexivity |].
  assert (Hlt : py_lt (dict_get y "timestamp") (dict_get x "timestamp") = Ok (ty <? tx))
    by (unfold dict_get; by rewrite Hx, Hy).
  assert (Hle : Mongo.doc_le Mongo.ASCENDING x y = (tx <=? ty))
    by (unfold Mongo.doc_le, Mongo.ts_key; by rewrite Hx, Hy).
  cbn [List.map py_insert Mongo.insert_sorted fst]. rewrite Hlt, Hle.
  unfold mbind at 1. unfold result_bind at 1.
  destruct (ty <? tx) eqn:E1, (tx <=? ty) eqn:E2; try lia.
  - rewrite IH. reflexivity.
  - reflexivity.
Qed.

Lemma py_sort_keyed_dated (l : list dict) :
  Forall dated l →
  py_sort_keyed (List.map (fun m => (dict_get m "timestamp", m)) l) =
  Ok (List.map (fun m => (dict_get m "timestamp", m)) (Mongo.sort Mongo.ASCENDING l)).
Proof.
  induction 1 as [|m l Hm Hl IH]; simpl; [done |].
  rewrite IH. simpl. apply py_insert_dated; [done |].
  by rewrite sort_perm.
Qed.

(** On dated records Python's [sorted] by timestamp is the stable sort in
    ascending order. *)
Lemma py_sorted_dated (l : list dict) :
  Forall dated l →
  py_sorted_by_timestamp l = Ok (Mongo.sort Mongo.ASCENDING l).
Proof.
  intros Hl. unfold py_sorted_by_timestamp.
  rewrite timestamp_keys_dated by done. simpl.
  rewrite py_sort_keyed_dated by done. simpl.
  rewrite map_map. simpl. by rewrite map_id.
Qed.

Lemma py_suffix_positive (n : Z) (l : list dict) :
  0 < n → py_suffix n l = drop (length l - Z.to_nat n) l.
Proof.
  intros Hn. unfold py_suffix.
  destruct (- n <? 0) eqn:E; [| apply Z.ltb_ge in E; lia].
  f_equal. lia.
Qed.

Lemma py_suffix_zero (l : list dict) : py_suffix 0 l = l.
Proof. unfold py_suffix. simpl. by rewrite Z.min_l by lia. Qed.

Lemma validated_window_slice (w : Mongo.t) (conv : string) (limit : option Z) (skip : Z) :
  List.map ConversationRepository.validate_message (stored_window w conv limit skip) =
  Mongo.apply_limit (match limit with Some n => n | None => 0 end)
    (drop (Z.to_nat skip)
       (List.map ConversationRepository.validate_message
          (stored_window w conv None 0))).
Proof.
  unfold stored_window, Mongo.select.
  cbn [ConversationRepository.history_cursor Mongo.c_limit Mongo.c_skip
       Mongo.c_sort Mongo.c_exclude_id Mongo.c_conversation_id].
  unfold Mongo.apply_skip.
  replace (Z.to_nat (if 0 <? skip then skip else 0)) with (Z.to_nat skip)
    by (destruct (0 <? skip) eqn:E; [done | apply Z.ltb_ge in E; lia]).
  change (Mongo.apply_limit 0 ?l) with l.
  change (Z.to_nat (if 0 <? 0 then 0 else 0)) with 0%nat.
  change (drop 0 ?l) with l.
  rewrite !skipn_map, !apply_limit_map. reflexivity.
Qed.

(** X16. Reading through the adapter from a store that answers: for a
    positive [max_history_length] [n] the adapter returns the first [n]
    records of the conversation in chronological order, that is the oldest
    ones, and whatever the fallback memory holds is left out as soon as the
    store returns a record. *)
Theorem adapter_history_from_store
    (a : MongoDBMemoryAdapter.t) (name : string) (w : Mongo.t) (all : list dict) :
  ConversationRepository.collection (MongoDBMemoryAdapter.repository a) = Some name →
  Mongo.query_fault w = None →
  0 < MongoDBMemoryAdapter.max_history_length a →
  ConversationRepository.get_conversation_history (MongoDBMemoryAdapter.repository a)
    w (MongoDBMemoryAdapter.conversation_id a) None 0 = Ok all →
  all ≠ [] ∨ MongoDBMemoryAdapter.fallback_memory a = [] →
  MongoDBMemoryAdapter.get_conversation_history a w =
  Ok (take (Z.to_nat (MongoDBMemoryAdapter.max_history_length a)) all).
Proof.
  intros Hc Hq Hn Hall Hne.
  erewrite fetch_available in Hall by done. injection Hall as <-.
  unfold MongoDBMemoryAdapter.get_conversation_history.
  erewrite fetch_available by done. rewrite validated_window_slice.
  change (drop (Z.to_nat 0) ?l) with l.
  unfold Mongo.apply_limit.
  destruct (MongoDBMemoryAdapter.max_history_length a =? 0) eqn:E;
    [apply Z.eqb_eq in E; lia |].
  rewrite Z.abs_eq by lia. simpl.
  destruct Hne as [Hne | ->]; [| by rewrite andb_false_r].
  destruct (List.map ConversationRepository.validate_message
              (stored_window w (MongoDBMemoryAdapter.conversation_id a) None 0))
    as [|m l]; [done |].
  destruct (Z.to_nat (MongoDBMemoryAdapter.max_history_length a)) eqn:E2; [lia |].
  reflexivity.
Qed.

Lemma adapter_history_from_store_witness :
  MongoDBMemoryAdapter.get_conversation_history Sample.online_adapter
    Sample.four_messages = Ok [Sample.u1; Sample.a1].
Proof.
  apply (adapter_history_from_store Sample.online_adapter "conversations"
           Sample.four_messages [Sample.u1; Sample.a1; Sample.u2; Sample.a2]).
  - reflexivity.
  - reflexivity.
  - reflexivity.
  - reflexivity.
  - left. discriminate.
Defined.

(** X17. Reading through the adapter when the store returns nothing and the
    fallback memory holds dated messages: the fallback messages are put in
    chronological order and, for a positive [max_history_length] [n], the
    last [n] of them are returned, that is the newest ones; with
    [max_history_length = 0] all of them are returned. *)
Theorem adapter_history_from_fallback
    (a : MongoDBMemoryAdapter.t) (w : Mongo.t) :
  ConversationRepository.get_conversation_history (MongoDBMemoryAdapter.repository a)
    w (MongoDBMemoryAdapter.conversation_id a)
    (Some (MongoDBMemoryAdapter.max_history_length a)) 0 = Ok [] →
  MongoDBMemoryAdapter.fallback_memory a ≠ [] →
  Forall dated (MongoDBMemoryAdapter.fallback_memory a) →
  let sorted := Mongo.sort Mongo.ASCENDING (MongoDBMemoryAdapter.fallback_memory a) in
  let n := MongoDBMemoryAdapter.max_history_length a in
  (0 < n →
   MongoDBMemoryAdapter.get_conversation_history a w =
   Ok (drop (length sorted - Z.to_nat n) sorted)) ∧
  (n = 0 → MongoDBMemoryAdapter.get_conversation_history a w = Ok sorted).
Proof.
  intros Hfetch Hne Hd sorted n.
  assert (Hget : MongoDBMemoryAdapter.get_conversation_history a w =
                 Ok (if n <? Z.of_nat (length sorted) then py_suffix n sorted else sorted)).
  { assert (Hnn : py_not (MongoDBMemoryAdapter.fallback_memory a) = false)
      by (by destruct (MongoDBMemoryAdapter.fallback_memory a)).
    unfold MongoDBMemoryAdapter.get_conversation_history. rewrite Hfetch.
    unfold mbind at 1. unfold result_bind at 1. cbn [py_not andb]. rewrite Hnn.
    cbn [negb]. rewrite py_sorted_dated by done. reflexivity. }
  assert (Hlen : sorted ≠ []).
  { intros Hnil. apply Hne. apply Permutation_nil_r. rewrite <- Hnil.
    unfold sorted. by rewrite sort_perm. }
  split.
  - intros Hn. rewrite Hget. destruct (n <? Z.of_nat (length sorted)) eqn:E.
    + by rewrite py_suffix_positive.
    + apply Z.ltb_ge in E.
      replace (length sorted - Z.to_nat n)%nat with 0%nat by lia. reflexivity.
  - intros Hn. rewrite Hget, Hn.
    destruct sorted; [done |]. simpl. by rewrite py_suffix_zero.
Qed.

Lemma adapter_history_from_fallback_witness :
  MongoDBMemoryAdapter.get_conversation_history Sample.offline_adapter
    (Sample.server []) = Ok [Sample.a1; Sample.u2].
Proof.
  destruct (adapter_history_from_fallback Sample.offline_adapter (Sample.server []))
    as [H _].
  - reflexivity.
  - discriminate.
  - repeat constructor; eexists; reflexivity.
  - apply H. reflexivity.
Defined.

(** ** The short-term memory *)

(** X18. Memory kept in process: adding a message appends it to the
    history, and for a positive [max_history_length] [n] the history read
    back is the last [n] messages, ending with the one just added; with
    [max_history_length = 0] the whole history is read back. *)
Theorem memory_in_process_window
    (m : ShortTermMemory.t) (w : Mongo.t) (role content : string) :
  ShortTermMemory.memory_adapter m = None →
  let new := ConversationRepository.new_message w
               (ShortTermMemory.conversation_id m) role content in
  let history := (ShortTermMemory.conversation_history m ++ [new])%list in
  let n := ShortTermMemory.max_history_length m in
  ∃ m',
    ShortTermMemory.add_message m w role content = Ok (m', w) ∧
    ShortTermMemory.conversation_history m' = history ∧
    (0 < n →
     ShortTermMemory.get_conversation_history m' w =
       Ok (drop (length history - Z.to_nat n) history) ∧
     last (drop (length history - Z.to_nat n) history) = Some new) ∧
    (n = 0 → ShortTermMemory.get_conversation_history m' w = Ok history).
Proof.
  intros Ha new history n.
  unfold ShortTermMemory.add_message. rewrite Ha.
  eexists. split; [reflexivity |]. split; [reflexivity |].
  unfold ShortTermMemory.get_conversation_history. simpl.
  fold new. fold history. fold n.
  assert (Hne : py_not history = false).
  { unfold history. by destruct (ShortTermMemory.conversation_history m). }
  rewrite Hne. split.
  - intros Hn. rewrite py_suffix_positive by done. split; [done |].
    unfold history at 2. rewrite drop_app_le.
    + apply last_snoc.
    + unfold history. rewrite length_app. simpl. lia.
  - intros ->. by rewrite py_suffix_zero.
Qed.

Lemma memory_in_process_window_witness :
  ∃ m',
    ShortTermMemory.add_message Sample.in_process_memory (Sample.server [])
      "user" "hello" = Ok (m', Sample.server []) ∧
    ShortTermMemory.get_conversation_history m' (Sample.server []) =
      Ok [ConversationRepository.new_message (Sample.server []) "c1" "user" "hello"].
Proof.
  destruct (memory_in_process_window Sample.in_process_memory (Sample.server [])
              "user" "hello") as (m' & Hadd & _ & Hget & _).
  - reflexivity.
  - exists m'. split; [exact Hadd |]. apply Hget. reflexivity.
Defined.

(** Clearing through the repository on a server that answers, then
    fetching on any later state of the server that holds the same
    documents: nothing is left to return. *)
Lemma clear_then_fetch_empty (r : ConversationRepository.t) (w : Mongo.t)
    (conv : string) :
  Mongo.query_fault w = None →
  ∃ b w',
    ConversationRepository.clear_conversation r w conv = Ok (b, w') ∧
    (is_Some (ConversationRepository.collection r) →
     b = true ∧ unknown_conversation w' conv) ∧
    ∀ w'' limit skip,
      Mongo.docs w'' = Mongo.docs w' → tolerated w'' →
      ConversationRepository.get_conversation_history r w'' conv limit skip = Ok [].
Proof.
  intros Hq.
  unfold ConversationRepository.clear_conversation,
    ConversationRepository.get_conversation_history.
  destruct (ConversationRepository.collection r) as [name|].
  - unfold Mongo.delete_many, Mongo.to_list. rewrite Hq. simpl.
    eexists _, _. split; [reflexivity |].
    assert (Hu : unknown_conversation
                   {| Mongo.docs :=
                        List.filter (fun d => negb (Mongo.matches conv d)) (Mongo.docs w);
                      Mongo.utcnow := Mongo.utcnow w;
                      Mongo.next_id := Mongo.next_id w;
                      Mongo.connect_fault := Mongo.connect_fault w;
                      Mongo.query_fault := Mongo.query_fault w |} conv)
      by apply filter_matches_removed.
    split; [by intros _ |].
    intros w'' limit skip Hdocs Ht.
    destruct (Mongo.query_fault w'') as [e|] eqn:Hq''; simpl.
    + by rewrite (Ht e Hq'').
    + change (Mongo.select w'' (ConversationRepository.history_cursor conv limit skip))
        with (stored_window w'' conv limit skip).
      rewrite stored_window_unknown; [done |].
      unfold unknown_conversation in *. simpl in Hdocs, Hu. by rewrite Hdocs.
  - eexists _, _. split; [reflexivity |]. split; [| done].
    by intros [? ?].
Qed.

(** X19. When the server answers the clearing, the memory reads back empty
    afterwards: on the server as the clearing leaves it and on every later
    state of the server that holds the same documents, as long as the read
    raises nothing but driver errors. With the history kept in the store the
    records of the conversation are deleted from the collection and the
    fallback memory is emptied; with the history kept in process the
    history is emptied. *)
Theorem clear_then_history_empty (m : ShortTermMemory.t) (w : Mongo.t) :
  Mongo.query_fault w = None →
  ∃ m' w',
    ShortTermMemory.clear_conversation m w = Ok (m', w') ∧
    (∀ ad, ShortTermMemory.memory_adapter m = Some ad →
           is_Some (ConversationRepository.collection
                      (MongoDBMemoryAdapter.repository ad)) →
           List.filter (Mongo.matches (MongoDBMemoryAdapter.conversation_id ad))
             (Mongo.docs w') = []) ∧
    ∀ w'', Mongo.docs w'' = Mongo.docs w' → tolerated w'' →
           ShortTermMemory.get_conversation_history m' w'' = Ok [].
Proof.
  intros Hq.
  unfold ShortTermMemory.clear_conversation, ShortTermMemory.get_conversation_history.
  destruct (ShortTermMemory.memory_adapter m) as [a|].
  - unfold MongoDBMemoryAdapter.clear_conversation.
    destruct (clear_then_fetch_empty (MongoDBMemoryAdapter.repository a) w
                (MongoDBMemoryAdapter.conversation_id a) Hq)
      as (b & w' & -> & Hdel & Hfetch).
    simpl. eexists _, _. split; [reflexivity |]. simpl. split.
    + intros ad [= <-] Hc. by destruct (Hdel Hc).
    + intros w'' Hdocs Ht.
      unfold MongoDBMemoryAdapter.get_conversation_history. simpl.
      by rewrite (Hfetch w'' _ _ Hdocs Ht).
  - eexists _, _. split; [reflexivity |]. split; [done |]. by intros.
Qed.

Lemma clear_then_history_empty_witness :
  ∃ m' w',
    ShortTermMemory.clear_conversation Sample.stored_memory Sample.four_messages =
      Ok (m', w') ∧
    Mongo.docs w' = [Sample.other] ∧
    ShortTermMemory.get_conversation_history m' w' = Ok [] ∧
    ShortTermMemory.get_conversation_history m'
      (Sample.failing Sample.server_timeout [Sample.other]) = Ok [].
Proof.
  destruct (clear_then_history_empty Sample.stored_memory Sample.four_messages)
    as (m' & w' & Hclear & _ & Hread); [reflexivity |].
  assert (Hw : w' = Sample.server [Sample.other]).
  { vm_compute in Hclear. by injection Hclear as _ <-. }
  exists m', w'. split; [exact Hclear |]. split; [by rewrite Hw |]. split.
  - apply Hread; [reflexivity |]. rewrite Hw. intros e He. discriminate.
  - apply Hread; [by rewrite Hw |]. intros e He. injection He as <-. reflexivity.
Defined.

Lemma format_entry_dom (msg : dict) :
  dom (MongoDBMemoryAdapter.format_entry msg) = ({[ "role"; "content" ]} : gset string).
Proof.
  unfold MongoDBMemoryAdapter.format_entry.
  rewrite dom_insert_L, dom_singleton_L. set_solver.
Qed.

(** X20. What the memory formats for the model is the history it reads, one
    entry per message, each with exactly the keys [role] and [content]; a
    message without a role is given the role "user" and one without a
    content the empty string. *)
Theorem format_for_llm_shape (m : ShortTermMemory.t) (w : Mongo.t) (l : list dict) :
  ShortTermMemory.format_for_llm m w = Ok l →
  ∃ history,
    ShortTermMemory.get_conversation_history m w = Ok history ∧
    l = List.map MongoDBMemoryAdapter.format_entry history ∧
    Forall (fun e : dict => dom e = ({[ "role"; "content" ]} : gset string)) l ∧
    (∀ msg, msg !! "role" = None →
            MongoDBMemoryAdapter.format_entry msg !! "role" = Some (PStr "user")) ∧
    (∀ msg, msg !! "content" = None →
            MongoDBMemoryAdapter.format_entry msg !! "content" = Some (PStr "")).
Proof.
  intros H.
  assert (Hh : ∃ history,
    ShortTermMemory.get_conversation_history m w = Ok history ∧
    l = List.map MongoDBMemoryAdapter.format_entry history).
  { revert H. unfold ShortTermMemory.format_for_llm,
      ShortTermMemory.get_conversation_history, MongoDBMemoryAdapter.format_for_llm.
    destruct (ShortTermMemory.memory_adapter m) as [a|].
    - destruct (MongoDBMemoryAdapter.get_conversation_history a w) as [h|e]; simpl;
        [| discriminate].
      intros [= <-]. by eexists.
    - simpl. intros [= <-]. by eexists. }
  destruct Hh as (history & Hget & ->). exists history.
  split; [done |]. split; [done |]. split; [| split].
  - apply Forall_forall. intros e (msg & <- & _)%list_elem_of_In%in_map_iff.
    apply format_entry_dom.
  - intros msg Hr. unfold MongoDBMemoryAdapter.format_entry, dict_get_default.
    rewrite Hr. apply lookup_insert_eq.
  - intros msg Hc. unfold MongoDBMemoryAdapter.format_entry, dict_get_default.
    rewrite Hc. rewrite lookup_insert_ne by done. apply lookup_singleton_eq.
Qed.

Lemma format_for_llm_shape_witness :
  ∃ history,
    ShortTermMemory.get_conversation_history Sample.stored_memory Sample.four_messages
      = Ok history ∧
    List.map MongoDBMemoryAdapter.format_entry
      (List.map ConversationRepository.validate_message
         (stored_window Sample.four_messages "c1" (Some 10) 0)) =
    List.map MongoDBMemoryAdapter.format_entry history.
Proof.
  destruct (format_for_llm_shape Sample.stored_memory Sample.four_messages
              (List.map MongoDBMemoryAdapter.format_entry
                 (List.map ConversationRepository.validate_message
                    (stored_window Sample.four_messages "c1" (Some 10) 0))))
    as (history & Hget & Hl & _).
  - reflexivity.
  - exists history. split; [exact Hget | exact Hl].
Defined.

(** ** The orchestrator: what is recorded, and what escapes *)












(** ** The retrieval tools *)

Lemma keep_returns (field : string) (value : pyval) (source : dict) (b : bool) :
  KnowledgeBaseRetriever.keep field value source = Ok b →
  b = has_metadata_value field value source ∧ filterable field source.
Proof.
  unfold KnowledgeBaseRetriever.keep, has_metadata_value, filterable,
    KnowledgeBaseRetriever.py_getitem, KnowledgeBaseRetriever.py_in.
  destruct (source !! "metadata") as [v|] eqn:Hv.
  - rewrite (dict_has_true _ _ _ Hv). unfold mbind, result_bind.
    destruct v as [| | |s| | |d]; try discriminate.
    + destruct (KnowledgeBaseRetriever.is_substring field s); [discriminate |].
      by intros [= <-].
    + destruct (d !! field) as [x|] eqn:Hx.
      * rewrite (dict_has_true _ _ _ Hx). by intros [= <-].
      * rewrite (dict_has_false _ _ Hx). by intros [= <-].
  - rewrite (dict_has_false _ _ Hv). by intros [= <-].
Qed.

Lemma keep_raises (field : string) (value : pyval) (source : dict) (e : exn) :
  KnowledgeBaseRetriever.keep field value source = Raise e →
  exn_class e = TypeError ∧ ¬ filterable field source.
Proof.
  unfold KnowledgeBaseRetriever.keep, filterable,
    KnowledgeBaseRetriever.py_getitem, KnowledgeBaseRetriever.py_in.
  destruct (source !! "metadata") as [v|] eqn:Hv.
  - rewrite (dict_has_true _ _ _ Hv). unfold mbind, result_bind.
    destruct v as [| | |s| | |d]; try (intros [= <-]; split; [reflexivity | tauto]).
    + destruct (KnowledgeBaseRetriever.is_substring field s); [| discriminate].
      intros [= <-]. split; [reflexivity | discriminate].
    + destruct (d !! field) as [x|] eqn:Hx.
      * by rewrite (dict_has_true _ _ _ Hx).
      * by rewrite (dict_has_false _ _ Hx).
  - by rewrite (dict_has_false _ _ Hv).
Qed.

Lemma keep_filterable (field : string) (value : pyval) (source : dict) :
  filterable field source →
  KnowledgeBaseRetriever.keep field value source =
  Ok (has_metadata_value field value source).
Proof.
  intros Hf.
  destruct (KnowledgeBaseRetriever.keep field value source) as [b|e] eqn:Hk.
  - by apply keep_returns in Hk as [-> _].
  - by apply keep_raises in Hk as [_ Hn].
Qed.

Lemma filter_by_metadata_cons (source : dict) (sources : list dict)
    (field : string) (value : pyval) :
  KnowledgeBaseRetriever.filter_by_metadata (source :: sources) field value =
  match KnowledgeBaseRetriever.keep field value source with
  | Raise e => Raise e
  | Ok b =>
      match KnowledgeBaseRetriever.filter_by_metadata sources field value with
      | Raise e => Raise e
      | Ok filtered => Ok (if b then source :: filtered else filtered)
      end
  end.
Proof. reflexivity. Qed.

Lemma filter_by_metadata_returns (sources : list dict) (field : string) (value : pyval) :
  ∀ l, KnowledgeBaseRetriever.filter_by_metadata sources field value = Ok l →
       l = List.filter (has_metadata_value field value) sources ∧
       Forall (filterable field) sources.
Proof.
  induction sources as [|source sources IH]; intros l.
  - by intros [= <-].
  - rewrite filter_by_metadata_cons.
    destruct (KnowledgeBaseRetriever.keep field value source) as [b|e] eqn:Hk;
      [| discriminate].
    destruct (KnowledgeBaseRetriever.filter_by_metadata sources field value)
      as [filtered|e]; [| discriminate].
    intros [= <-]. destruct (IH filtered eq_refl) as [-> HF].
    apply keep_returns in Hk as [-> Hf]. split; [| by constructor].
    simpl. by destruct (has_metadata_value field value source).
Qed.

Lemma filter_by_metadata_filterable (sources : list dict) (field : string)
    (value : pyval) :
  Forall (filterable field) sources →
  KnowledgeBaseRetriever.filter_by_metadata sources field value =
  Ok (List.filter (has_metadata_value field value) sources).
Proof.
  induction 1 as [|source sources Hf _ IH]; [reflexivity |].
  rewrite filter_by_metadata_cons, (keep_filterable _ _ _ Hf), IH. simpl.
  by destruct (has_metadata_value field value source).
Qed.

Lemma has_metadata_value_filterable (field : string) (value : pyval) (source : dict) :
  has_metadata_value field value source = true → filterable field source.
Proof.
  unfold has_metadata_value, filterable.
  by destruct (source !! "metadata") as [[| | | | | |d]|].
Qed.

(** X24. Whenever the filter returns, it returns exactly the sources whose
    metadata is a mapping holding the field with an equal value, in their
    order, and filtering the result again by the same field and value
    returns it unchanged. *)
Theorem filter_by_metadata_fixed_point (sources l : list dict) (field : string)
    (value : pyval) :
  KnowledgeBaseRetriever.filter_by_metadata sources field value = Ok l →
  l = List.filter (has_metadata_value field value) sources ∧
  KnowledgeBaseRetriever.filter_by_metadata l field value = Ok l.
Proof.
  intros [-> _]%filter_by_metadata_returns. split; [reflexivity |].
  rewrite filter_by_metadata_filterable.
  - f_equal. induction sources as [|source sources IH]; [reflexivity |]. simpl.
    destruct (has_metadata_value field value source) eqn:Hs; [| exact IH].
    simpl. by rewrite Hs, IH.
  - apply Forall_forall. intros source [_ Hs]%list_elem_of_In%filter_In.
    by apply has_metadata_value_filterable in Hs.
Qed.

Lemma filter_by_metadata_fixed_point_witness :
  [Sample.en] = List.filter (has_metadata_value "lang" (PStr "en"))
                  [Sample.en; Sample.fr; Sample.u1] ∧
  KnowledgeBaseRetriever.filter_by_metadata [Sample.en] "lang" (PStr "en") =
  Ok [Sample.en].
Proof.
  apply (filter_by_metadata_fixed_point [Sample.en; Sample.fr; Sample.u1]
           [Sample.en] "lang" (PStr "en")).
  reflexivity.
Defined.

(** X25. What the filter raises. An exception that leaves the filter is a
    [TypeError], never a [KeyError], and one of the sources has metadata
    that is not a mapping: the filter cannot raise on sources that have no
    metadata or a mapping as metadata. *)
Theorem filter_by_metadata_raises_type_error (sources : list dict) (field : string)
    (value : pyval) (e : exn) :
  KnowledgeBaseRetriever.filter_by_metadata sources field value = Raise e →
  exn_class e = TypeError ∧
  ∃ source, source ∈ sources ∧ ¬ mapping_metadata source.
Proof.
  induction sources as [|source sources IH]; [discriminate |].
  rewrite filter_by_metadata_cons.
  destruct (KnowledgeBaseRetriever.keep field value source) as [b|e'] eqn:Hk.
  - destruct (KnowledgeBaseRetriever.filter_by_metadata sources field value)
      as [filtered|e']; [discriminate |].
    intros [= ->]. destruct (IH eq_refl) as (Hc & s' & Hs' & Hn).
    split; [exact Hc |]. exists s'. split; [by apply elem_of_cons; right | exact Hn].
  - intros [= ->]. apply keep_raises in Hk as [Hc Hn]. split; [exact Hc |].
    exists source. split; [by apply elem_of_cons; left |].
    intros Hm. apply Hn. unfold filterable.
    destruct (source !! "metadata") as [v|] eqn:Hv; [| done].
    by destruct (Hm v Hv) as [metadata ->].
Qed.

Lemma filter_by_metadata_raises_type_error_witness :
  exn_class (KnowledgeBaseRetriever.not_iterable PNone) = TypeError ∧
  ∃ source, source ∈ [Sample.en; Sample.null_metadata] ∧ ¬ mapping_metadata source.
Proof.
  apply (filter_by_metadata_raises_type_error [Sample.en; Sample.null_metadata]
           "lang" (PStr "en")).
  reflexivity.
Defined.

(** The order of strings. *)
Lemma ascii_compare_Lt_trans (a b c : Ascii.ascii) :
  Ascii.compare a b = Lt → Ascii.compare b c = Lt → Ascii.compare a c = Lt.
Proof. unfold Ascii.compare. rewrite !N.compare_lt_iff. lia. Qed.

Lemma string_compare_Lt_trans (s1 : string) : ∀ s2 s3,
  String.compare s1 s2 = Lt → String.compare s2 s3 = Lt → String.compare s1 s3 = Lt.
Proof.
  induction s1 as [|a s1 IH]; intros [|b s2] [|c s3]; simpl; try done.
  destruct (Ascii.compare a b) eqn:Hab; try done.
  - apply Ascii.compare_eq_iff in Hab as ->.
    destruct (Ascii.compare b c) eqn:Hbc; try done. apply IH.
  - intros _. destruct (Ascii.compare b c) eqn:Hbc; try done.
    + apply Ascii.compare_eq_iff in Hbc as <-. by rewrite Hab.
    + by rewrite (ascii_compare_Lt_trans _ _ _ Hab Hbc).
Qed.

#[local] Instance str_le_trans : Transitive KnowledgeBaseRetriever.str_le.
Proof.
  intros s1 s2 s3. unfold KnowledgeBaseRetriever.str_le, String.leb.
  destruct (String.compare s1 s2) eqn:H12; try done;
    destruct (String.compare s2 s3) eqn:H23; try done; intros _ _.
  - apply String.compare_eq_iff in H12 as ->. by rewrite H23.
  - apply String.compare_eq_iff in H12 as ->. by rewrite H23.
  - apply String.compare_eq_iff in H23 as <-. by rewrite H12.
  - by rewrite (string_compare_Lt_trans _ _ _ H12 H23).
Qed.

#[local] Instance str_le_total : Total KnowledgeBaseRetriever.str_le.
Proof. intros s1 s2. apply String.leb_total. Qed.

(** The set of fields after the loop over the sources. *)
Lemma metadata_fields_fold (sources : list dict) : ∀ (acc : gset string) (x : string),
  x ∈ foldl (fun fields source =>
               if dict_has source "metadata" then
                 match dict_get source "metadata" with
                 | PDict metadata => fields ∪ dom metadata
                 | _ => fields
                 end
               else fields) acc sources ↔
  x ∈ acc ∨ ∃ source, source ∈ sources ∧ metadata_field x source.
Proof.
  induction sources as [|source sources IH]; intros acc x; simpl.
  - split; [by left |]. intros [H | (source & H & _)]; [done |].
    by apply elem_of_nil in H.
  - rewrite IH. unfold metadata_field.
    destruct (source !! "metadata") as [v|] eqn:Hv.
    + rewrite (dict_has_true _ _ _ Hv). unfold dict_get. rewrite Hv.
      destruct v as [| | | | | |d]; cbn [default from_option id].
      all: try (split;
        [ intros [H | (s' & Hs' & Hm)]; [by left | right; exists s'; split;
            [by apply elem_of_cons; right | done]]
        | intros [H | (s' & [-> | Hs']%elem_of_cons & Hm)];
            [ by left
            | destruct Hm as (m & Hm & _); rewrite Hv in Hm; discriminate
            | right; by exists s' ] ]).
      rewrite elem_of_union, elem_of_dom. split.
      * intros [[H | H] | (s' & Hs' & Hm)]; [by left | |].
        -- right. exists source. split; [by apply elem_of_cons; left |]. by exists d.
        -- right. exists s'. split; [by apply elem_of_cons; right | done].
      * intros [H | (s' & [-> | Hs']%elem_of_cons & Hm)].
        -- by left; left.
        -- destruct Hm as (m & Hm & Hx). rewrite Hv in Hm.
           injection Hm as <-. by left; right.
        -- right. by exists s'.
    + rewrite (dict_has_false _ _ Hv). split.
      * intros [H | (s' & Hs' & Hm)]; [by left |].
        right. exists s'. split; [by apply elem_of_cons; right | done].
      * intros [H | (s' & [-> | Hs']%elem_of_cons & Hm)]; [by left | |].
        -- destruct Hm as (m & Hm & _). rewrite Hv in Hm. discriminate.
        -- right. by exists s'.
Qed.

Lemma elem_of_get_metadata_fields (sources : list dict) (x : string) :
  x ∈ KnowledgeBaseRetriever.get_metadata_fields sources ↔
  ∃ source, source ∈ sources ∧ metadata_field x source.
Proof.
  unfold KnowledgeBaseRetriever.get_metadata_fields, KnowledgeBaseRetriever.py_sorted.
  rewrite merge_sort_Permutation, elem_of_elements, metadata_fields_fold.
  split; [intros [H | H]; [by apply elem_of_empty in H | done] | by right].
Qed.

(** X26. The listed metadata fields are the keys of the sources' metadata,
    each once, in increasing order. A source without metadata, or whose
    metadata is not a mapping, contributes nothing and raises nothing. *)
Theorem get_metadata_fields_sorted_keys (sources : list dict) :
  (∀ x, x ∈ KnowledgeBaseRetriever.get_metadata_fields sources ↔
        ∃ source, source ∈ sources ∧ metadata_field x source) ∧
  NoDup (KnowledgeBaseRetriever.get_metadata_fields sources) ∧
  StronglySorted KnowledgeBaseRetriever.str_le
    (KnowledgeBaseRetriever.get_metadata_fields sources).
Proof.
  split; [apply elem_of_get_metadata_fields |].
  unfold KnowledgeBaseRetriever.get_metadata_fields, KnowledgeBaseRetriever.py_sorted.
  split.
  - rewrite merge_sort_Permutation. apply NoDup_elements.
  - apply (StronglySorted_merge_sort _).
Qed.

(** X27. The two operations agree on what a field is: when the filter
    returns at least one source, the field it was asked for is among the
    listed metadata fields of the sources. Filtering on a field that is not
    listed therefore returns the empty list whenever it returns. *)
Theorem filter_result_field_listed (sources l : list dict) (field : string)
    (value : pyval) :
  KnowledgeBaseRetriever.filter_by_metadata sources field value = Ok l →
  l ≠ [] →
  field ∈ KnowledgeBaseRetriever.get_metadata_fields sources.
Proof.
  intros [-> _]%filter_by_metadata_returns Hne.
  destruct (List.filter _ sources) as [|source l] eqn:Hl; [done |].
  apply elem_of_get_metadata_fields.
  assert (Hin : In source (List.filter (has_metadata_value field value) sources))
    by (rewrite Hl; by left).
  apply filter_In in Hin as [Hin Hs]. exists source.
  split; [by apply list_elem_of_In |].
  unfold has_metadata_value in Hs. unfold metadata_field.
  destruct (source !! "metadata") as [[| | | | | |d]|]; try discriminate.
  exists d. split; [reflexivity |]. by destruct (d !! field).
Qed.

Lemma filter_result_field_listed_witness :
  "lang" ∈ KnowledgeBaseRetriever.get_metadata_fields [Sample.en; Sample.fr; Sample.u1].
Proof.
  apply (filter_result_field_listed [Sample.en; Sample.fr; Sample.u1] [Sample.en]
           "lang" (PStr "en")).
  - reflexivity.
  - discriminate.
Defined.

Lemma format_documents_lookup (documents : list BedrockRetrieverClient.Document)
    (i : nat) (source : dict) :
  BedrockRetrieverClient.format_documents documents !! i = Some source →
  ∃ doc, documents !! i = Some doc ∧
         source =
           {[ "index" := PInt (Z.of_nat i + 1);
              "content" := PStr (BedrockRetrieverClient.page_content doc);
              "metadata" := PDict (match BedrockRetrieverClient.metadata doc with
                                   | Some m => m
                                   | None => ∅
                                   end) ]}.
Proof.
  unfold BedrockRetrieverClient.format_documents. rewrite list_lookup_imap.
  destruct (documents !! i) as [doc|]; [| discriminate].
  intros [= <-]. by exists doc.
Qed.

Lemma format_documents_filterable (documents : list BedrockRetrieverClient.Document)
    (field : string) :
  Forall (filterable field) (BedrockRetrieverClient.format_documents documents).
Proof.
  apply Forall_lookup. intros i source Hs.
  apply format_documents_lookup in Hs as (doc & _ & ->).
  unfold filterable. rewrite lookup_insert_ne by done.
  rewrite lookup_insert_ne by done. by rewrite lookup_singleton_eq.
Qed.

(** X28. Formatting numbers the documents from 1 in their order, one source
    per document, and gives every source a mapping as metadata (the empty
    one for a document without metadata). The filter therefore never raises
    on formatted sources: it returns those whose metadata holds the field
    with an equal value. *)
Theorem format_documents_then_filter (documents : list BedrockRetrieverClient.Document)
    (field : string) (value : pyval) :
  length (BedrockRetrieverClient.format_documents documents) = length documents ∧
  (∀ i source,
     BedrockRetrieverClient.format_documents documents !! i = Some source →
     source !! "index" = Some (PInt (Z.of_nat i + 1)) ∧
     ∃ doc, documents !! i = Some doc ∧
            source !! "content" = Some (PStr (BedrockRetrieverClient.page_content doc)) ∧
            source !! "metadata" =
              Some (PDict (default ∅ (BedrockRetrieverClient.metadata doc)))) ∧
  KnowledgeBaseRetriever.filter_by_metadata
    (BedrockRetrieverClient.format_documents documents) field value =
  Ok (List.filter (has_metadata_value field value)
        (BedrockRetrieverClient.format_documents documents)).
Proof.
  split; [apply length_imap |]. split.
  - intros i source Hs. apply format_documents_lookup in Hs as (doc & Hd & ->).
    split; [by rewrite lookup_insert_eq |]. exists doc. split; [exact Hd |].
    split.
    + rewrite lookup_insert_ne by done. by rewrite lookup_insert_eq.
    + rewrite lookup_insert_ne by done. rewrite lookup_insert_ne by done.
      rewrite lookup_singleton_eq. by destruct (BedrockRetrieverClient.metadata doc).
  - apply filter_by_metadata_filterable, format_documents_filterable.
Qed.

Lemma retrieve_cases (self : KnowledgeBaseRetriever.t) (query : string) :
  KnowledgeBaseRetriever.retrieve self query =
  match BedrockRetrieverClient.get_relevant_documents
          (KnowledgeBaseRetriever.client self) query with
  | Ok documents =>
      Ok {| KnowledgeBaseRetriever.sources :=
              BedrockRetrieverClient.format_documents documents;
            KnowledgeBaseRetriever.query := query;
            KnowledgeBaseRetriever.document_count :=
              Z.of_nat (length (BedrockRetrieverClient.format_documents documents));
            KnowledgeBaseRetriever.status := "success";
            KnowledgeBaseRetriever.error := None |}
  | Raise e =>
      Ok {| KnowledgeBaseRetriever.sources := [];
            KnowledgeBaseRetriever.query := query;
            KnowledgeBaseRetriever.document_count := 0;
            KnowledgeBaseRetriever.status := "error";
            KnowledgeBaseRetriever.error := Some ("Error in retrieval: " +:+ exn_str e) |}
  end.
Proof.
  unfold KnowledgeBaseRetriever.retrieve, BedrockRetrieverClient.retrieve_documents.
  destruct (BedrockRetrieverClient.get_relevant_documents _ query) as [documents|e];
    [reflexivity |].
  unfold try_except. rewrite isinstance_Exception.
  unfold mbind, result_bind. by rewrite isinstance_Exception.
Qed.

(** X29. The retrieval tool never raises and never reports an error. When
    the knowledge base returns documents, the response carries their
    formatted sources and their number. When the knowledge base raises, the
    retriever answers with status [error] and a message, but the handler
    copies only the sources and the count, so the tool's response is an
    empty result with no error. *)
Theorem retrieve_documents_drops_error (rag_handler : BedrockRagHandler.t)
    (request : BedrockRagMcpServer.DocumentRetrievalRequest) :
  ∃ resp,
    BedrockRagMcpServer.retrieve_documents rag_handler request = Ok resp ∧
    BedrockRagMcpServer.query resp = BedrockRagMcpServer.rq_query request ∧
    BedrockRagMcpServer.error resp = None ∧
    match BedrockRetrieverClient.get_relevant_documents
            (KnowledgeBaseRetriever.client (BedrockRagHandler.retriever rag_handler))
            (BedrockRagMcpServer.rq_query request) with
    | Ok documents =>
        BedrockRagMcpServer.sources resp =
          BedrockRetrieverClient.format_documents documents ∧
        BedrockRagMcpServer.document_count resp = Some (Z.of_nat (length documents))
    | Raise e =>
        BedrockRagMcpServer.sources resp = [] ∧
        BedrockRagMcpServer.document_count resp = Some 0 ∧
        ∃ r, KnowledgeBaseRetriever.retrieve (BedrockRagHandler.retriever rag_handler)
               (BedrockRagMcpServer.rq_query request) = Ok r ∧
             KnowledgeBaseRetriever.status r = "error" ∧
             KnowledgeBaseRetriever.error r =
               Some ("Error in retrieval: " +:+ exn_str e)
    end.
Proof.
  unfold BedrockRagMcpServer.retrieve_documents, BedrockRagHandler.perform_rag_query.
  rewrite retrieve_cases.
  destruct (BedrockRetrieverClient.get_relevant_documents _ _) as [documents|e]; simpl.
  - eexists. split; [reflexivity |]. simpl. split; [done |]. split; [done |].
    split; [done |]. f_equal. f_equal. apply length_imap.
  - eexists. split; [reflexivity |]. simpl. split; [done |]. split; [done |].
    split; [done |]. split; [done |]. by eexists.
Qed.

(** X30. The filter tool never raises. Its response echoes the field and
    the value and counts the sources it was given; it carries no error
    exactly when every source can be filtered, and then holds the filtered
    sources and their number. Otherwise one source that cannot be filtered
    empties the whole result: no source is returned, the filtered count is 0
    and the error text is set. *)
Theorem filter_tool_response (request : BedrockRagMcpServer.MetadataFilterRequest) :
  ∃ resp,
    BedrockRagMcpServer.filter_by_metadata request = Ok resp ∧
    BedrockRagMcpServer.field resp = BedrockRagMcpServer.rq_field request ∧
    BedrockRagMcpServer.value resp = BedrockRagMcpServer.rq_value request ∧
    BedrockRagMcpServer.original_count resp =
      Z.of_nat (length (BedrockRagMcpServer.rq_sources request)) ∧
    BedrockRagMcpServer.filtered_count resp =
      Z.of_nat (length (BedrockRagMcpServer.filtered_sources resp)) ∧
    (BedrockRagMcpServer.filter_error resp = None ↔
     Forall (filterable (BedrockRagMcpServer.rq_field request))
       (BedrockRagMcpServer.rq_sources request)) ∧
    BedrockRagMcpServer.filtered_sources resp =
      match BedrockRagMcpServer.filter_error resp with
      | None =>
          List.filter (has_metadata_value (BedrockRagMcpServer.rq_field request)
                         (BedrockRagMcpServer.rq_value request))
            (BedrockRagMcpServer.rq_sources request)
      | Some _ => []
      end.
Proof.
  unfold BedrockRagMcpServer.filter_by_metadata.
  destruct (KnowledgeBaseRetriever.filter_by_metadata _ _ _) as [l|e] eqn:Hf; simpl.
  - apply filter_by_metadata_returns in Hf as [-> HF].
    eexists. split; [reflexivity |]. simpl. by repeat split.
  - rewrite isinstance_Exception.
    eexists. split; [reflexivity |]. simpl. repeat split; try done.
    intros HF. apply (filter_by_metadata_filterable _ _
                        (BedrockRagMcpServer.rq_value request)) in HF.
    rewrite Hf in HF. discriminate.
Qed.

Lemma retrieve_documents_failure_example :
  BedrockRagMcpServer.retrieve_documents
    (Sample.rag_handler (Raise Sample.access_denied)) Sample.retrieval_request =
  Ok {| BedrockRagMcpServer.sources := [];
        BedrockRagMcpServer.query := "what is bedrock?";
        BedrockRagMcpServer.document_count := Some 0;
        BedrockRagMcpServer.error := None |}.
Proof. reflexivity. Qed.

Lemma get_metadata_fields_example :
  KnowledgeBaseRetriever.get_metadata_fields
    (Sample.null_metadata ::
     BedrockRetrieverClient.format_documents [Sample.doc_plain; Sample.doc_en]) =
  ["lang"; "source"].
Proof. vm_compute. reflexivity. Qed.
